(** * Fernet tokens (cryptography/fernet.py): a shallow embedding

    The module [cryptography.fernet] builds and validates authenticated,
    timestamped tokens on top of four collaborators: the URL-safe base64
    codec, PKCS7 block padding, AES in CBC mode and HMAC-SHA256.  The
    collaborators are taken here as operations with stated contracts; the
    control flow of [Fernet.__init__], [Fernet.generate_key],
    [Fernet.encrypt], [Fernet._encrypt_from_parts] and [Fernet.decrypt] is
    transcribed statement by statement into a small state-and-exception
    monad. *)

From Stdlib Require Import List ZArith Lia Bool String.
From Stdlib Require Import Init.Byte Strings.Byte.
Import ListNotations.
Open Scope Z_scope.

(** ** Bytes *)

Definition bytes := list byte.

Definition Z_of_byte (b : byte) : Z := Z.of_N (Byte.to_N b).

Definition byte_of_Z (z : Z) : byte :=
  match Byte.of_N (Z.to_N (z mod 256)) with
  | Some b => b
  | None => x00
  end.

(** ** Python slicing: [l[lo:hi]] with optional and negative bounds *)

Definition norm_index (len i : Z) : Z :=
  let j := if i <? 0 then i + len else i in
  Z.max 0 (Z.min len j).

Definition py_slice {A : Type} (l : list A) (lo hi : option Z) : list A :=
  let len := Z.of_nat (List.length l) in
  let a := match lo with None => 0 | Some i => norm_index len i end in
  let b := match hi with None => len | Some i => norm_index len i end in
  firstn (Z.to_nat (b - a)) (skipn (Z.to_nat a) l).

(** ** [struct.pack(">Q", n)] and [struct.unpack(">Q", b)]: eight bytes,
    most significant first *)

Fixpoint be_bytes (n : nat) (v : Z) : bytes :=
  match n with
  | O => []
  | S n' => byte_of_Z (v / 256 ^ Z.of_nat n') :: be_bytes n' v
  end.

Definition be_value (b : bytes) : Z :=
  fold_left (fun acc x => acc * 256 + Z_of_byte x) b 0.

(** [None] stands for [struct.error]: the value does not fit, respectively
    the buffer is not 8 bytes long. *)
Definition struct_pack_Q (v : Z) : option bytes :=
  if (0 <=? v) && (v <? 2 ^ 64) then Some (be_bytes 8 v) else None.

Definition struct_unpack_Q (b : bytes) : option Z :=
  if Nat.eqb (List.length b) 8 then Some (be_value b) else None.

(** ** Exceptions and results *)

Inductive exn : Type :=
| TypeError
| ValueError
| IndexError
| StructError
| BinasciiError
| InvalidSignature
| InvalidToken.

Definition exn_eqb (a b : exn) : bool :=
  match a, b with
  | TypeError, TypeError | ValueError, ValueError | IndexError, IndexError
  | StructError, StructError | BinasciiError, BinasciiError
  | InvalidSignature, InvalidSignature | InvalidToken, InvalidToken => true
  | _, _ => false
  end.

Inductive result (A : Type) : Type :=
| Ok (a : A)
| Raise (e : exn).
Arguments Ok {A} a.
Arguments Raise {A} e.

(** A Python value that may be handed to [encrypt] or [decrypt]: a byte
    string, or a text object, for which [isinstance(v, six.text_type)]
    holds. *)
Inductive pyval : Type :=
| PyBytes (b : bytes)
| PyText (s : string).

(** ** Observable operations

    Every call that leaves [fernet.py] for the clock, the random source or a
    [hazmat] primitive is recorded, in call order.  The record is ghost
    state: no operation reads it. *)

Inductive event : Type :=
| EvClock (t : Z)
| EvUrandom (n : nat)
| EvPad (data : bytes)
| EvUnpad (data : bytes)
| EvCbcEncrypt (key iv data : bytes)
| EvCbcDecrypt (key iv data : bytes)
| EvHmacSign (key msg : bytes)
| EvHmacVerify (key msg tag : bytes) (ok : bool).

(** The operations of the [hazmat] primitives: padding, cipher and MAC. *)
Definition is_crypto (e : event) : bool :=
  match e with
  | EvClock _ | EvUrandom _ => false
  | _ => true
  end.

(** No CBC decryption appears in a record before a successful MAC
    verification; [verified] tells whether one has been seen so far. *)
Fixpoint mac_guards_decrypt (verified : bool) (evs : list event) : bool :=
  match evs with
  | [] => true
  | EvHmacVerify _ _ _ ok :: evs' => mac_guards_decrypt (verified || ok) evs'
  | EvCbcDecrypt _ _ _ :: evs' => verified && mac_guards_decrypt verified evs'
  | _ :: evs' => mac_guards_decrypt verified evs'
  end.

Definition _MAX_CLOCK_SKEW : Z := 60.

(** ** Collaborators

    What [fernet.py] imports from outside the module. *)

Class Collaborators : Type := {
  Backend : Type;
  default_backend : Backend;
  (** [base64.urlsafe_b64encode] and [base64.urlsafe_b64decode]; [None] is
      the decoder raising [TypeError] or [binascii.Error]. *)
  urlsafe_b64encode : bytes -> bytes;
  urlsafe_b64decode : bytes -> option bytes;
  (** [padding.PKCS7(128)]: [padder.update(d) + padder.finalize()] and
      [unpadder.update(d) + unpadder.finalize()]; [None] is the
      [ValueError] of [finalize]. *)
  pkcs7_pad : bytes -> bytes;
  pkcs7_unpad : bytes -> option bytes;
  (** [Cipher(algorithms.AES(key), modes.CBC(iv), backend)]: the output of
      [update(d) + finalize()] of its encryptor and of its decryptor;
      [None] is the [ValueError] of [finalize]. *)
  aes_cbc_encrypt : Backend -> bytes -> bytes -> bytes -> option bytes;
  aes_cbc_decrypt : Backend -> bytes -> bytes -> bytes -> option bytes;
  (** [HMAC(key, hashes.SHA256(), backend)]: [update(msg)] followed by
      [finalize()], respectively by [verify(tag)] ([false] is
      [InvalidSignature]). *)
  hmac_sha256 : Backend -> bytes -> bytes -> bytes;
  hmac_sha256_verify : Backend -> bytes -> bytes -> bytes -> bool
}.

Section Fernet.

Context {C : Collaborators}.

(** *** The object and the world *)

Record Fernet : Type := mkFernet {
  _signing_key : bytes;
  _encryption_key : bytes;
  _backend : Backend
}.

Record state : Type := mkState {
  st_self : Fernet;          (* the attributes of [self] *)
  st_clock : Z;              (* [int(time.time())] *)
  st_entropy : nat -> byte;  (* the byte stream behind [os.urandom] *)
  st_cursor : nat;           (* how much of it has been drawn *)
  st_log : list event
}.

Definition M (A : Type) : Type := state -> result A * state.

Definition ret {A : Type} (a : A) : M A := fun s => (Ok a, s).

Definition bind {A B : Type} (m : M A) (k : A -> M B) : M B :=
  fun s =>
    match m s with
    | (Ok a, s') => k a s'
    | (Raise e, s') => (Raise e, s')
    end.

Definition raise {A : Type} (e : exn) : M A := fun s => (Raise e, s).

(** [try: m except <handled>: h] *)
Definition try_except {A : Type} (m : M A) (handled : exn -> bool) (h : M A)
  : M A :=
  fun s =>
    match m s with
    | (Ok a, s') => (Ok a, s')
    | (Raise e, s') => if handled e then h s' else (Raise e, s')
    end.

Definition when (c : bool) (m : M unit) : M unit :=
  if c then m else ret tt.

Definition of_option {A : Type} (o : option A) (e : exn) : M A :=
  match o with Some a => ret a | None => raise e end.

Definition emit (ev : event) : M unit :=
  fun s => (Ok tt, mkState (st_self s) (st_clock s) (st_entropy s)
                           (st_cursor s) (st_log s ++ [ev])).

Definition getattr {A : Type} (f : Fernet -> A) : M A :=
  fun s => (Ok (f (st_self s)), s).

Definition setattr (upd : Fernet -> Fernet) : M unit :=
  fun s => (Ok tt, mkState (upd (st_self s)) (st_clock s) (st_entropy s)
                           (st_cursor s) (st_log s)).

Notation "x <- m ;; k" := (bind m (fun x => k))
  (at level 61, m at next level, right associativity).
Notation "m ;; k" := (bind m (fun _ => k))
  (at level 61, right associativity).

(** *** Calls that leave the module *)

(** [int(time.time())] *)
Definition time_time : M Z :=
  fun s => (Ok (st_clock s),
            mkState (st_self s) (st_clock s) (st_entropy s) (st_cursor s)
                    (st_log s ++ [EvClock (st_clock s)])).

(** [os.urandom(n)] *)
Definition os_urandom (n : nat) : M bytes :=
  fun s => (Ok (map (st_entropy s) (seq (st_cursor s) n)),
            mkState (st_self s) (st_clock s) (st_entropy s) (st_cursor s + n)
                    (st_log s ++ [EvUrandom n])).

(** [six.indexbytes(buf, i)] *)
Definition indexbytes (buf : bytes) (i : nat) : M byte :=
  of_option (nth_error buf i) IndexError.

(** [base64.urlsafe_b64decode(s)] *)
Definition b64decode (s : bytes) : M bytes :=
  of_option (urlsafe_b64decode s) BinasciiError.

(** [struct.pack(">Q", v)] and [struct.unpack(">Q", b)] *)
Definition pack_Q (v : Z) : M bytes :=
  of_option (struct_pack_Q v) StructError.

Definition unpack_Q (b : bytes) : M Z :=
  of_option (struct_unpack_Q b) StructError.

(** [p = padding.PKCS7(128).padder(); p.update(data) + p.finalize()], and
    the same for the unpadder, the encryptor and the decryptor. *)
Definition padder (data : bytes) : M bytes :=
  emit (EvPad data) ;; ret (pkcs7_pad data).

Definition unpadder (data : bytes) : M bytes :=
  emit (EvUnpad data) ;; of_option (pkcs7_unpad data) ValueError.

Definition encryptor (backend : Backend) (key iv data : bytes) : M bytes :=
  emit (EvCbcEncrypt key iv data) ;;
  of_option (aes_cbc_encrypt backend key iv data) ValueError.

Definition decryptor (backend : Backend) (key iv data : bytes) : M bytes :=
  emit (EvCbcDecrypt key iv data) ;;
  of_option (aes_cbc_decrypt backend key iv data) ValueError.

(** [h = HMAC(key, hashes.SHA256(), backend); h.update(msg)] followed by
    [h.finalize()], respectively by [h.verify(tag)]. *)
Definition hmac_finalize (backend : Backend) (key msg : bytes) : M bytes :=
  emit (EvHmacSign key msg) ;; ret (hmac_sha256 backend key msg).

Definition hmac_verify (backend : Backend) (key msg tag : bytes) : M unit :=
  let ok := hmac_sha256_verify backend key msg tag in
  emit (EvHmacVerify key msg tag ok) ;;
  if ok then ret tt else raise InvalidSignature.

(** *** class Fernet *)

Definition __init__ (key : bytes) (backend : option Backend) : M unit :=
  (* if backend is None: backend = default_backend() *)
  let backend :=
    match backend with None => default_backend | Some b => b end in
  (* key = base64.urlsafe_b64decode(key) *)
  key <- b64decode key ;;
  (* if len(key) != 32: raise ValueError(...) *)
  when (negb (Nat.eqb (List.length key) 32)) (raise ValueError) ;;
  (* self._signing_key = key[:16] *)
  setattr (fun o => mkFernet (py_slice key None (Some 16))
                             (_encryption_key o) (_backend o)) ;;
  (* self._encryption_key = key[16:] *)
  setattr (fun o => mkFernet (_signing_key o)
                             (py_slice key (Some 16) None) (_backend o)) ;;
  (* self._backend = backend *)
  setattr (fun o => mkFernet (_signing_key o) (_encryption_key o) backend).

Definition generate_key : M bytes :=
  (* return base64.urlsafe_b64encode(os.urandom(32)) *)
  r <- os_urandom 32 ;;
  ret (urlsafe_b64encode r).

Definition _encrypt_from_parts (data : pyval) (current_time : Z) (iv : bytes)
  : M bytes :=
  match data with
  (* if isinstance(data, six.text_type): raise TypeError(...) *)
  | PyText _ => raise TypeError
  | PyBytes data =>
      (* padded_data = padder.update(data) + padder.finalize() *)
      padded_data <- padder data ;;
      (* ciphertext = encryptor.update(padded_data) + encryptor.finalize() *)
      ek <- getattr _encryption_key ;;
      backend <- getattr _backend ;;
      ciphertext <- encryptor backend ek iv padded_data ;;
      (* basic_parts = b"\x80" + struct.pack(">Q", current_time)
                       + iv + ciphertext *)
      packed <- pack_Q current_time ;;
      let basic_parts := x80 :: packed ++ iv ++ ciphertext in
      (* h.update(basic_parts); hmac = h.finalize() *)
      sk <- getattr _signing_key ;;
      backend <- getattr _backend ;;
      hmac <- hmac_finalize backend sk basic_parts ;;
      (* return base64.urlsafe_b64encode(basic_parts + hmac) *)
      ret (urlsafe_b64encode (basic_parts ++ hmac))
  end.

Definition encrypt (data : pyval) : M bytes :=
  (* current_time = int(time.time()) *)
  current_time <- time_time ;;
  (* iv = os.urandom(16) *)
  iv <- os_urandom 16 ;;
  _encrypt_from_parts data current_time iv.

Definition decrypt (token : pyval) (ttl : option Z) : M bytes :=
  match token with
  (* if isinstance(token, six.text_type): raise TypeError(...) *)
  | PyText _ => raise TypeError
  | PyBytes token =>
      (* current_time = int(time.time()) *)
      current_time <- time_time ;;
      (* try: data = base64.urlsafe_b64decode(token)
         except (TypeError, binascii.Error): raise InvalidToken *)
      data <- try_except (b64decode token)
                (fun e => exn_eqb e TypeError || exn_eqb e BinasciiError)
                (raise InvalidToken) ;;
      (* if six.indexbytes(data, 0) != 0x80: raise InvalidToken *)
      b0 <- indexbytes data 0 ;;
      when (negb (Byte.eqb b0 x80)) (raise InvalidToken) ;;
      (* try: timestamp, = struct.unpack(">Q", data[1:9])
         except struct.error: raise InvalidToken *)
      timestamp <- try_except (unpack_Q (py_slice data (Some 1) (Some 9)))
                     (fun e => exn_eqb e StructError)
                     (raise InvalidToken) ;;
      (* if ttl is not None:
             if timestamp + ttl < current_time: raise InvalidToken *)
      match ttl with
      | Some ttl => when (timestamp + ttl <? current_time) (raise InvalidToken)
      | None => ret tt
      end ;;
      (* if current_time + _MAX_CLOCK_SKEW < timestamp: raise InvalidToken *)
      when (current_time + _MAX_CLOCK_SKEW <? timestamp) (raise InvalidToken) ;;
      (* h.update(data[:-32])
         try: h.verify(data[-32:])
         except InvalidSignature: raise InvalidToken *)
      sk <- getattr _signing_key ;;
      backend <- getattr _backend ;;
      try_except
        (hmac_verify backend sk (py_slice data None (Some (-32)))
                                (py_slice data (Some (-32)) None))
        (fun e => exn_eqb e InvalidSignature)
        (raise InvalidToken) ;;
      (* iv = data[9:25]; ciphertext = data[25:-32] *)
      let iv := py_slice data (Some 9) (Some 25) in
      let ciphertext := py_slice data (Some 25) (Some (-32)) in
      (* plaintext_padded = decryptor.update(ciphertext)
         try: plaintext_padded += decryptor.finalize()
         except ValueError: raise InvalidToken *)
      ek <- getattr _encryption_key ;;
      backend <- getattr _backend ;;
      plaintext_padded <- try_except (decryptor backend ek iv ciphertext)
                            (fun e => exn_eqb e ValueError)
                            (raise InvalidToken) ;;
      (* unpadded = unpadder.update(plaintext_padded)
         try: unpadded += unpadder.finalize()
         except ValueError: raise InvalidToken
         return unpadded *)
      try_except (unpadder plaintext_padded)
        (fun e => exn_eqb e ValueError)
        (raise InvalidToken)
  end.

(** The events a computation adds to the record when started in [s]. *)
Definition events_of {A : Type} (m : M A) (s : state) : list event :=
  skipn (List.length (st_log s)) (st_log (snd (m s))).

(** The checks of [decrypt] that do not read the clock, in source order:
    version byte, timestamp field, MAC, CBC decryption, padding.  The result
    is the timestamp and the plaintext of a token that passes them all. *)
Definition untimed_checks (self : Fernet) (data : bytes) : option (Z * bytes) :=
  match data with
  | [] => None
  | b0 :: _ =>
      if negb (Byte.eqb b0 x80) then None else
      match struct_unpack_Q (py_slice data (Some 1) (Some 9)) with
      | None => None
      | Some timestamp =>
          if hmac_sha256_verify (_backend self) (_signing_key self)
               (py_slice data None (Some (-32)))
               (py_slice data (Some (-32)) None)
          then
            match aes_cbc_decrypt (_backend self) (_encryption_key self)
                    (py_slice data (Some 9) (Some 25))
                    (py_slice data (Some 25) (Some (-32))) with
            | None => None
            | Some padded =>
                match pkcs7_unpad padded with
                | None => None
                | Some plaintext => Some (timestamp, plaintext)
                end
            end
          else None
      end
  end.

(** A computation that leaves the attributes of [self] as it found them. *)
Definition preserves_self {A : Type} (m : M A) : Prop :=
  forall s, st_self (snd (m s)) = st_self s.

End Fernet.

(** ** Reference collaborators

    Executable stand-ins for the collaborators, used to run the module on
    concrete inputs: URL-safe base64 with a strict decoder, PKCS7 padding
    to 16-byte blocks, CBC chaining over a keyed block permutation that
    stands in for AES, and a 32-byte keyed checksum that stands in for
    HMAC-SHA256.  They meet the contracts the theorems below assume; they
    are not secure. *)

Module Ref.

Definition alphabet : bytes :=
  list_byte_of_string
    "ABCDEFGHIJKLMNOPQRSTUVWXYZabcdefghijklmnopqrstuvwxyz0123456789-_".

Definition pad_char : byte := "="%byte.

Definition sextet_char (n : Z) : byte := nth (Z.to_nat n) alphabet x00.

Fixpoint index_of (c : byte) (l : bytes) (i : Z) : option Z :=
  match l with
  | [] => None
  | x :: l' => if Byte.eqb c x then Some i else index_of c l' (i + 1)
  end.

Definition char_sextet (c : byte) : option Z := index_of c alphabet 0.

Fixpoint b64encode (d : bytes) : bytes :=
  match d with
  | a :: b :: c :: d' =>
      sextet_char (Z_of_byte a / 4)
      :: sextet_char (Z_of_byte a mod 4 * 16 + Z_of_byte b / 16)
      :: sextet_char (Z_of_byte b mod 16 * 4 + Z_of_byte c / 64)
      :: sextet_char (Z_of_byte c mod 64)
      :: b64encode d'
  | [a; b] =>
      [ sextet_char (Z_of_byte a / 4);
        sextet_char (Z_of_byte a mod 4 * 16 + Z_of_byte b / 16);
        sextet_char (Z_of_byte b mod 16 * 4);
        pad_char ]
  | [a] =>
      [ sextet_char (Z_of_byte a / 4);
        sextet_char (Z_of_byte a mod 4 * 16);
        pad_char; pad_char ]
  | [] => []
  end.

Definition is_nil {A : Type} (l : list A) : bool :=
  match l with [] => true | _ => false end.

Fixpoint b64decode (s : bytes) : option bytes :=
  match s with
  | [] => Some []
  | c1 :: c2 :: c3 :: c4 :: s' =>
      match char_sextet c1, char_sextet c2 with
      | Some s1, Some s2 =>
          let b1 := byte_of_Z (s1 * 4 + s2 / 16) in
          match char_sextet c3 with
          | Some s3 =>
              let b2 := byte_of_Z (s2 mod 16 * 16 + s3 / 4) in
              match char_sextet c4 with
              | Some s4 =>
                  match b64decode s' with
                  | Some t => Some (b1 :: b2 :: byte_of_Z (s3 mod 4 * 64 + s4) :: t)
                  | None => None
                  end
              | None =>
                  if Byte.eqb c4 pad_char && is_nil s'
                  then Some [b1; b2] else None
              end
          | None =>
              if Byte.eqb c3 pad_char && Byte.eqb c4 pad_char && is_nil s'
              then Some [b1] else None
          end
      | _, _ => None
      end
  | _ => None
  end.

Definition pkcs7_pad (d : bytes) : bytes :=
  let n := (16 - List.length d mod 16)%nat in
  d ++ repeat (byte_of_Z (Z.of_nat n)) n.

Definition pkcs7_unpad (d : bytes) : option bytes :=
  let len := List.length d in
  let b := last d x00 in
  let n := Z.to_nat (Z_of_byte b) in
  if Nat.eqb len 0 || negb (Nat.eqb (len mod 16) 0) then None
  else if Nat.eqb n 0 || Nat.ltb 16 n then None
  else if forallb (fun x => Byte.eqb x b) (skipn (len - n) d)
       then Some (firstn (len - n) d)
       else None.

Definition xor_byte (a b : byte) : byte :=
  let '(a0, (a1, (a2, (a3, (a4, (a5, (a6, a7))))))) := Byte.to_bits a in
  let '(b0, (b1, (b2, (b3, (b4, (b5, (b6, b7))))))) := Byte.to_bits b in
  Byte.of_bits (xorb a0 b0, (xorb a1 b1, (xorb a2 b2, (xorb a3 b3,
               (xorb a4 b4, (xorb a5 b5, (xorb a6 b6, xorb a7 b7))))))).

Fixpoint xor_bytes (a b : bytes) : bytes :=
  match a, b with
  | x :: a', y :: b' => xor_byte x y :: xor_bytes a' b'
  | _, _ => []
  end.

(** The block permutation: reverse the block, then mix in the key. *)
Definition block_encrypt (key block : bytes) : bytes :=
  xor_bytes (rev block) key.

Definition block_decrypt (key block : bytes) : bytes :=
  rev (xor_bytes block key).

Fixpoint cbc_encrypt_blocks (n : nat) (key prev d : bytes) : bytes :=
  match n with
  | O => []
  | S n' =>
      let c := block_encrypt key (xor_bytes (firstn 16 d) prev) in
      c ++ cbc_encrypt_blocks n' key c (skipn 16 d)
  end.

Fixpoint cbc_decrypt_blocks (n : nat) (key prev d : bytes) : bytes :=
  match n with
  | O => []
  | S n' =>
      let c := firstn 16 d in
      xor_bytes (block_decrypt key c) prev
      ++ cbc_decrypt_blocks n' key c (skipn 16 d)
  end.

Definition cbc_encrypt (_ : unit) (key iv d : bytes) : option bytes :=
  if Nat.eqb (List.length d mod 16) 0
  then Some (cbc_encrypt_blocks (List.length d / 16) key iv d)
  else None.

Definition cbc_decrypt (_ : unit) (key iv d : bytes) : option bytes :=
  if Nat.eqb (List.length d mod 16) 0
  then Some (cbc_decrypt_blocks (List.length d / 16) key iv d)
  else None.

Definition checksum (key msg : bytes) (i : nat) : byte :=
  byte_of_Z
    (fold_left (fun acc x => (acc * (2 * Z.of_nat i + 3) + Z_of_byte x) mod 256)
       (key ++ msg) (Z.of_nat i)).

Definition mac (_ : unit) (key msg : bytes) : bytes :=
  map (checksum key msg) (seq 0 32).

Fixpoint bytes_eqb (a b : bytes) : bool :=
  match a, b with
  | [], [] => true
  | x :: a', y :: b' => Byte.eqb x y && bytes_eqb a' b'
  | _, _ => false
  end.

Definition mac_verify (b : unit) (key msg tag : bytes) : bool :=
  bytes_eqb (mac b key msg) tag.

End Ref.

Definition ref_collaborators : Collaborators := {|
  Backend := unit;
  default_backend := tt;
  urlsafe_b64encode := Ref.b64encode;
  urlsafe_b64decode := Ref.b64decode;
  pkcs7_pad := Ref.pkcs7_pad;
  pkcs7_unpad := Ref.pkcs7_unpad;
  aes_cbc_encrypt := Ref.cbc_encrypt;
  aes_cbc_decrypt := Ref.cbc_decrypt;
  hmac_sha256 := Ref.mac;
  hmac_sha256_verify := Ref.mac_verify
|}.

(** ** Sample runs

    A key, a clock and a random stream on which the module is run with the
    reference collaborators. *)

Module Sample.

#[local] Existing Instance ref_collaborators.

Definition raw_key : bytes := map (fun i => byte_of_Z (Z.of_nat i)) (seq 0 32).

Definition key : bytes := Ref.b64encode raw_key.

Definition short_key : bytes := Ref.b64encode (firstn 31 raw_key).

Definition entropy (i : nat) : byte := byte_of_Z (7 * Z.of_nat i + 3).

Definition now : Z := 1385000000.

(** [self] before [__init__] has run, at clock reading [t]. *)
Definition blank (t : Z) : state :=
  mkState (mkFernet [] [] tt) t entropy 0 [].

(** [Fernet(key)], at clock reading [t]. *)
Definition constructed (t : Z) : state := snd (__init__ key None (blank t)).

Definition secret : bytes := list_byte_of_string "secret".

Definition iv : bytes := map entropy (seq 0 16).

(** The token [_encrypt_from_parts(b"secret", t, iv)]. *)
Definition token_at (t : Z) : bytes :=
  match fst (_encrypt_from_parts (PyBytes secret) t iv (constructed t)) with
  | Ok token => token
  | Raise _ => []
  end.

Definition data_at (t : Z) : bytes :=
  match Ref.b64decode (token_at t) with
  | Some data => data
  | None => []
  end.

End Sample.

(** ** Classes of recorded operations *)


(** What the decoder may call: the clock, MAC verification, CBC decryption
    and unpadding. *)
Definition is_decoder_op (e : event) : bool :=
  match e with
  | EvClock _ | EvHmacVerify _ _ _ _ | EvCbcDecrypt _ _ _ | EvUnpad _ => true
  | _ => false
  end.

(** ** Further sample inputs *)

Module MoreSamples.

Import Sample.

#[local] Existing Instance ref_collaborators.

(** The sample token with its version byte zeroed. *)
Definition bad_version_data : bytes := x00 :: skipn 1 (data_at now).

Definition bad_version_token : bytes := Ref.b64encode bad_version_data.

(** The sample token with the last byte of its MAC changed. *)
Definition forged_data : bytes :=
  removelast (data_at now)
  ++ [Ref.xor_byte (last (data_at now) x00) x01].

Definition forged_token : bytes := Ref.b64encode forged_data.

(** A version byte and two more bytes. *)
Definition short_data : bytes := [x80; x00; x00].

Definition short_token : bytes := Ref.b64encode short_data.

(** The ciphertext inside the sample token. *)
Definition ciphertext : bytes :=
  match Ref.cbc_encrypt tt (skipn 16 raw_key) iv (Ref.pkcs7_pad secret) with
  | Some c => c
  | None => []
  end.

(** A second key, and [Fernet(other_key)] at clock reading [t]. *)
Definition other_raw_key : bytes :=
  map (fun i => byte_of_Z (Z.of_nat i + 100)) (seq 0 32).

Definition other_key : bytes := Ref.b64encode other_raw_key.

Definition other_constructed (t : Z) : state :=
  snd (__init__ other_key None (blank t)).

End MoreSamples.

(** * Properties *)

(** ** Python slices *)

Lemma norm_index_nonneg (len i : Z) :
  0 <= i <= len -> norm_index len i = i.
Proof. unfold norm_index. intros H. destruct (Z.ltb_spec i 0); lia. Qed.

Lemma norm_index_neg (len i : Z) :
  0 < i <= len -> norm_index len (- i) = len - i.
Proof. unfold norm_index. intros H. destruct (Z.ltb_spec (- i) 0); lia. Qed.

Lemma firstn_skipn_mid {A : Type} (a b c : list A) :
  firstn (List.length b) (skipn (List.length a) (a ++ b ++ c)) = b.
Proof.
  rewrite skipn_app, skipn_all, Nat.sub_diag. simpl.
  rewrite firstn_app, firstn_all, Nat.sub_diag. simpl. apply app_nil_r.
Qed.

Lemma py_slice_mid {A : Type} (a b c : list A) :
  py_slice (a ++ b ++ c) (Some (Z.of_nat (List.length a)))
           (Some (Z.of_nat (List.length a + List.length b))) = b.
Proof.
  unfold py_slice. rewrite !length_app.
  rewrite !norm_index_nonneg by lia.
  replace (Z.to_nat _) with (List.length b) by lia.
  rewrite Nat2Z.id. apply firstn_skipn_mid.
Qed.

Lemma py_slice_mid_neg {A : Type} (a b c : list A) :
  (0 < List.length c)%nat ->
  py_slice (a ++ b ++ c) (Some (Z.of_nat (List.length a)))
           (Some (- Z.of_nat (List.length c))) = b.
Proof.
  intros Hc. unfold py_slice. rewrite !length_app.
  rewrite norm_index_neg by lia. rewrite norm_index_nonneg by lia.
  replace (Z.to_nat (_ - _)) with (List.length b) by lia.
  rewrite Nat2Z.id. apply firstn_skipn_mid.
Qed.

Lemma py_slice_init_neg {A : Type} (a c : list A) :
  (0 < List.length c)%nat ->
  py_slice (a ++ c) None (Some (- Z.of_nat (List.length c))) = a.
Proof.
  intros Hc. unfold py_slice. rewrite !length_app.
  rewrite norm_index_neg by lia.
  replace (Z.to_nat (_ - _)) with (List.length a) by lia.
  simpl. rewrite firstn_app, firstn_all, Nat.sub_diag. simpl. apply app_nil_r.
Qed.

Lemma py_slice_tail_neg {A : Type} (a c : list A) :
  (0 < List.length c)%nat ->
  py_slice (a ++ c) (Some (- Z.of_nat (List.length c))) None = c.
Proof.
  intros Hc. unfold py_slice. rewrite !length_app.
  rewrite norm_index_neg by lia.
  replace (Z.to_nat (_ - (_ - _))) with (List.length c) by lia.
  replace (Z.to_nat _) with (List.length a) by lia.
  rewrite skipn_app, skipn_all, Nat.sub_diag. simpl. apply firstn_all.
Qed.

Lemma py_slice_to {A : Type} (l : list A) (n : nat) :
  py_slice l None (Some (Z.of_nat n)) = firstn n l.
Proof.
  unfold py_slice, norm_index.
  destruct (Z.ltb_spec (Z.of_nat n) 0); [lia|]. simpl skipn.
  destruct (Z.le_gt_cases (Z.of_nat (List.length l)) (Z.of_nat n)).
  - rewrite Z.max_r, Z.min_l, Z.sub_0_r, Nat2Z.id by lia.
    rewrite firstn_all. symmetry. apply firstn_all2. lia.
  - rewrite Z.max_r, Z.min_r, Z.sub_0_r, Nat2Z.id by lia. reflexivity.
Qed.

Lemma py_slice_from {A : Type} (l : list A) (n : nat) :
  py_slice l (Some (Z.of_nat n)) None = skipn n l.
Proof.
  unfold py_slice, norm_index.
  destruct (Z.ltb_spec (Z.of_nat n) 0); [lia|].
  destruct (Z.le_gt_cases (Z.of_nat (List.length l)) (Z.of_nat n)).
  - rewrite Z.max_r, Z.min_l, Nat2Z.id by lia.
    rewrite skipn_all. rewrite skipn_all2 by lia. apply firstn_nil.
  - rewrite Z.max_r, Z.min_r, Nat2Z.id by lia.
    apply firstn_all2. rewrite length_skipn. lia.
Qed.

(** ** The timestamp field *)

Lemma Z_of_byte_range (b : byte) : 0 <= Z_of_byte b < 256.
Proof.
  unfold Z_of_byte. pose proof (Byte.to_N_bounded b). lia.
Qed.

Lemma Z_of_byte_of_Z (z : Z) : Z_of_byte (byte_of_Z z) = z mod 256.
Proof.
  unfold byte_of_Z, Z_of_byte.
  pose proof (Z.mod_pos_bound z 256 eq_refl) as Hr.
  destruct (Byte.of_N (Z.to_N (z mod 256))) as [b|] eqn:E.
  - apply Byte.to_of_N in E. rewrite E. lia.
  - apply Byte.of_N_None_iff in E. lia.
Qed.

Lemma byte_of_Z_of_byte (b : byte) : byte_of_Z (Z_of_byte b) = b.
Proof.
  unfold byte_of_Z. pose proof (Z_of_byte_range b).
  rewrite Z.mod_small by assumption.
  unfold Z_of_byte. rewrite N2Z.id, Byte.of_to_N. reflexivity.
Qed.

Lemma length_be_bytes (n : nat) (v : Z) : List.length (be_bytes n v) = n.
Proof. induction n; simpl; congruence. Qed.

Lemma be_fold_be_bytes (n : nat) (v acc : Z) :
  fold_left (fun a x => a * 256 + Z_of_byte x) (be_bytes n v) acc
  = acc * 256 ^ Z.of_nat n + v mod 256 ^ Z.of_nat n.
Proof.
  revert acc. induction n as [|n IH]; intros acc.
  - simpl. rewrite Z.mod_1_r. lia.
  - cbn [be_bytes fold_left]. rewrite IH, Z_of_byte_of_Z.
    rewrite Nat2Z.inj_succ, Z.pow_succ_r by lia.
    rewrite (Z.mul_comm 256 (256 ^ Z.of_nat n)).
    rewrite (Z.rem_mul_r v (256 ^ Z.of_nat n) 256) by lia.
    ring.
Qed.

Lemma struct_unpack_pack_Q (v : Z) (b : bytes) :
  struct_pack_Q v = Some b -> struct_unpack_Q b = Some v.
Proof.
  unfold struct_pack_Q, struct_unpack_Q.
  destruct (_ && _) eqn:E; [|discriminate]. intros H.
  replace b with (be_bytes 8 v) by congruence. clear H.
  rewrite length_be_bytes. simpl Nat.eqb. cbv iota.
  unfold be_value. rewrite be_fold_be_bytes.
  apply andb_true_iff in E as [H0 H1].
  apply Z.leb_le in H0. apply Z.ltb_lt in H1.
  change (256 ^ Z.of_nat 8) with (2 ^ 64).
  rewrite Z.mod_small by lia. reflexivity.
Qed.

Lemma struct_pack_Q_total (v : Z) :
  0 <= v < 2 ^ 64 -> struct_pack_Q v = Some (be_bytes 8 v).
Proof.
  intros [H0 H1]. unfold struct_pack_Q.
  apply Z.leb_le in H0. apply Z.ltb_lt in H1. rewrite H0, H1. reflexivity.
Qed.

Section FernetTheory.

Context {C : Collaborators}.

(** ** Running the monad *)

Ltac unfold_M :=
  cbv beta iota delta
    [decrypt encrypt _encrypt_from_parts __init__ generate_key
     bind ret raise try_except when of_option emit getattr setattr
     time_time os_urandom indexbytes b64decode pack_Q unpack_Q
     padder unpadder encryptor decryptor hmac_finalize hmac_verify
     exn_eqb orb negb];
  cbn [st_self st_clock st_entropy st_cursor st_log fst snd
       _signing_key _encryption_key _backend nth_error].

(** Case analysis on the next check the running program makes. *)
Ltac next_check :=
  match goal with
  | |- context [match ?o with Some _ => _ | None => _ end] =>
      destruct o eqn:?
  | |- context [nth_error ?l 0] =>
      destruct l eqn:?
  | |- context [if ?c then _ else _] =>
      destruct c eqn:?
  end; unfold_M.

Lemma skipn_length_app {A : Type} (l evs : list A) :
  skipn (List.length l) (l ++ evs) = evs.
Proof.
  rewrite skipn_app, skipn_all, Nat.sub_diag. reflexivity.
Qed.

(** ** Construction of the key material *)

(** What [__init__] does with a key that decodes to [k]. *)
Lemma init_run (key k : bytes) (backend : option Backend) (s : state) :
  urlsafe_b64decode key = Some k ->
  __init__ key backend s =
    if Nat.eqb (List.length k) 32
    then (Ok tt,
          mkState
            (mkFernet (firstn 16 k) (skipn 16 k)
               (match backend with None => default_backend | Some b => b end))
            (st_clock s) (st_entropy s) (st_cursor s) (st_log s))
    else (Raise ValueError, s).
Proof.
  intros Hk. unfold_M. rewrite Hk. unfold_M.
  destruct (Nat.eqb (List.length k) 32); unfold_M; [|reflexivity].
  change (Some 16) with (Some (Z.of_nat 16)).
  rewrite py_slice_to, py_slice_from. reflexivity.
Qed.

(** C4: when the decoded key has exactly 32 bytes, [__init__] succeeds and
    stores the first 16 bytes as the signing key and the last 16 bytes as the
    encryption key, unchanged; for any other decoded length it raises
    [ValueError], stores nothing and has called no primitive. *)
Theorem init_splits_key (key k : bytes) (backend : option Backend) (s : state) :
  urlsafe_b64decode key = Some k ->
  (List.length k = 32%nat ->
     fst (__init__ key backend s) = Ok tt /\
     st_self (snd (__init__ key backend s)) =
       mkFernet (firstn 16 k) (skipn 16 k)
                (match backend with None => default_backend | Some b => b end) /\
     List.length (firstn 16 k) = 16%nat /\
     List.length (skipn 16 k) = 16%nat /\
     firstn 16 k ++ skipn 16 k = k /\
     events_of (__init__ key backend) s = []) /\
  (List.length k <> 32%nat ->
     __init__ key backend s = (Raise ValueError, s)).
Proof.
  intros Hk. unfold events_of. rewrite (init_run key k backend s Hk).
  split; intros Hlen.
  - rewrite Hlen. cbn [Nat.eqb fst snd st_self st_log].
    rewrite length_firstn, length_skipn, Hlen, firstn_skipn, skipn_all.
    repeat split; reflexivity.
  - apply Nat.eqb_neq in Hlen. rewrite Hlen. reflexivity.
Qed.

(** ** Text input *)

(** C8: a text value given as plaintext or as token raises [TypeError], which
    is not [InvalidToken]; [_encrypt_from_parts] and [decrypt] raise it as
    their first statement, and [encrypt] has by then only read the clock and
    drawn the iv: no padding, cipher or MAC operation has been called. *)
Theorem text_input_raises_TypeError (txt : string) (ttl : option Z)
    (current_time : Z) (iv : bytes) (s : state) :
  decrypt (PyText txt) ttl s = (Raise TypeError, s) /\
  _encrypt_from_parts (PyText txt) current_time iv s = (Raise TypeError, s) /\
  fst (encrypt (PyText txt) s) = Raise TypeError /\
  events_of (encrypt (PyText txt)) s = [EvClock (st_clock s); EvUrandom 16] /\
  forallb (fun e => negb (is_crypto e)) (events_of (encrypt (PyText txt)) s)
    = true /\
  TypeError <> InvalidToken.
Proof.
  assert (He : events_of (encrypt (PyText txt)) s
               = [EvClock (st_clock s); EvUrandom 16]).
  { unfold events_of. unfold_M. rewrite <- app_assoc.
    apply skipn_length_app. }
  repeat split; try reflexivity; try discriminate.
  - exact He.
  - rewrite He. reflexivity.
Qed.

(** ** The empty token *)

(** C2 (the code at the failing input): a token that decodes to the empty
    byte string makes [six.indexbytes(data, 0)] raise [IndexError], which
    [decrypt] does not turn into [InvalidToken]. *)
Theorem decrypt_empty_data_raises_IndexError
    (token : bytes) (ttl : option Z) (s : state) :
  urlsafe_b64decode token = Some [] ->
  fst (decrypt (PyBytes token) ttl s) = Raise IndexError.
Proof.
  intros Hd. unfold_M. rewrite Hd. reflexivity.
Qed.

(** Every other failure of [decrypt] on a byte string is [InvalidToken]. *)
Lemma decrypt_failure_uniform
    (token : bytes) (ttl : option Z) (s : state) (e : exn) :
  urlsafe_b64decode token <> Some [] ->
  fst (decrypt (PyBytes token) ttl s) = Raise e -> e = InvalidToken.
Proof.
  intros Hne. unfold_M.
  destruct (urlsafe_b64decode token) as [[|b0 data]|]; unfold_M;
    [contradiction Hne; reflexivity| |intros [= <-]; reflexivity].
  destruct ttl as [ttl|];
    repeat (next_check; try discriminate; try (intros [= <-]; reflexivity)).
Qed.

(** Data of 1 to 8 bytes has no complete timestamp field: [struct.unpack]
    fails and the handler around it answers [InvalidToken]. *)
Lemma timestamp_field_short (b0 : byte) (data : bytes) :
  (List.length data < 8)%nat ->
  struct_unpack_Q (py_slice (b0 :: data) (Some 1) (Some 9)) = None.
Proof.
  intros Hlen. unfold struct_unpack_Q, py_slice.
  rewrite (norm_index_nonneg _ 1) by (cbn [List.length]; lia).
  change (Z.to_nat 1) with 1%nat. cbn [skipn].
  replace (Nat.eqb _ 8) with false; [reflexivity|].
  symmetry. apply Nat.eqb_neq. rewrite length_firstn. lia.
Qed.

Lemma decrypt_short_data_raises_InvalidToken
    (token data : bytes) (ttl : option Z) (s : state) :
  urlsafe_b64decode token = Some data ->
  (0 < List.length data < 9)%nat ->
  fst (decrypt (PyBytes token) ttl s) = Raise InvalidToken.
Proof.
  intros Hd Hlen. destruct data as [|b0 data]; [cbn in Hlen; lia|].
  cbn [List.length] in Hlen.
  unfold_M. rewrite Hd. unfold_M.
  destruct (Byte.eqb b0 x80); unfold_M; [|reflexivity].
  rewrite timestamp_field_short by lia. reflexivity.
Qed.

(** ** The key material is read-only *)

Lemma preserves_ret {A : Type} (a : A) : preserves_self (ret a).
Proof. intros s. reflexivity. Qed.

Lemma preserves_raise {A : Type} (e : exn) : preserves_self (raise (A := A) e).
Proof. intros s. reflexivity. Qed.

Lemma preserves_bind {A B : Type} (m : M A) (k : A -> M B) :
  preserves_self m -> (forall a, preserves_self (k a)) ->
  preserves_self (bind m k).
Proof.
  intros Hm Hk s. unfold bind. specialize (Hm s).
  destruct (m s) as [[a|e] s1]; cbn [snd] in *.
  - rewrite Hk. exact Hm.
  - exact Hm.
Qed.

Lemma preserves_try_except {A : Type} (m h : M A) (handled : exn -> bool) :
  preserves_self m -> preserves_self h ->
  preserves_self (try_except m handled h).
Proof.
  intros Hm Hh s. unfold try_except. specialize (Hm s).
  destruct (m s) as [[a|e] s1]; cbn [snd] in *; [exact Hm|].
  destruct (handled e); cbn [snd]; [rewrite Hh|]; exact Hm.
Qed.

Lemma preserves_when (c : bool) (m : M unit) :
  preserves_self m -> preserves_self (when c m).
Proof. intros Hm. destruct c; [exact Hm|apply preserves_ret]. Qed.

Lemma preserves_of_option {A : Type} (o : option A) (e : exn) :
  preserves_self (of_option o e).
Proof. destruct o; intros s; reflexivity. Qed.

Lemma preserves_emit (ev : event) : preserves_self (emit ev).
Proof. intros s. reflexivity. Qed.

Lemma preserves_getattr {A : Type} (f : Fernet -> A) :
  preserves_self (getattr f).
Proof. intros s. reflexivity. Qed.

Lemma preserves_time_time : preserves_self time_time.
Proof. intros s. reflexivity. Qed.

Lemma preserves_os_urandom (n : nat) : preserves_self (os_urandom n).
Proof. intros s. reflexivity. Qed.

Lemma preserves_hmac_verify (backend : Backend) (key msg tag : bytes) :
  preserves_self (hmac_verify backend key msg tag).
Proof.
  unfold hmac_verify. apply preserves_bind; [apply preserves_emit|].
  intros _. destruct (hmac_sha256_verify _ _ _ _);
    [apply preserves_ret|apply preserves_raise].
Qed.

Ltac frame_step :=
  first
    [ apply preserves_ret | apply preserves_raise | apply preserves_emit
    | apply preserves_getattr | apply preserves_time_time
    | apply preserves_os_urandom
    | apply preserves_of_option | apply preserves_hmac_verify
    | apply preserves_when | apply preserves_try_except
    | apply preserves_bind; [|intro] ].

Lemma preserves__encrypt_from_parts (data : pyval) (t : Z) (iv : bytes) :
  preserves_self (_encrypt_from_parts data t iv).
Proof.
  unfold _encrypt_from_parts, padder, encryptor, pack_Q, hmac_finalize.
  destruct data; repeat frame_step.
Qed.

Lemma preserves_decrypt (token : pyval) (ttl : option Z) :
  preserves_self (decrypt token ttl).
Proof.
  unfold decrypt, b64decode, indexbytes, unpack_Q, decryptor, unpadder.
  destruct token; [|frame_step].
  repeat frame_step. destruct ttl; repeat frame_step.
Qed.

(** C9: [encrypt], [_encrypt_from_parts] and [decrypt] leave the signing
    key, the encryption key and the backend of [self] as they found them,
    whatever the outcome of the call. *)
Theorem key_material_unchanged
    (data token : pyval) (ttl : option Z) (t : Z) (iv : bytes) (s : state) :
  st_self (snd (encrypt data s)) = st_self s /\
  st_self (snd (_encrypt_from_parts data t iv s)) = st_self s /\
  st_self (snd (decrypt token ttl s)) = st_self s.
Proof.
  split; [|split].
  - unfold encrypt.
    apply preserves_bind; [apply preserves_time_time|intro].
    apply preserves_bind; [apply preserves_os_urandom|intro].
    apply preserves__encrypt_from_parts.
  - apply preserves__encrypt_from_parts.
  - apply preserves_decrypt.
Qed.

(** ** Freshness *)

(** A token that passes every check that does not read the clock is judged
    on its timestamp alone. *)
Lemma decrypt_timed {token data : bytes} (ttl : option Z) (s : state)
    {timestamp : Z} {plaintext : bytes} :
  urlsafe_b64decode token = Some data ->
  untimed_checks (st_self s) data = Some (timestamp, plaintext) ->
  fst (decrypt (PyBytes token) ttl s) =
    if match ttl with
       | Some ttl => timestamp + ttl <? st_clock s
       | None => false
       end
    then Raise InvalidToken
    else if st_clock s + _MAX_CLOCK_SKEW <? timestamp
         then Raise InvalidToken
         else Ok plaintext.
Proof.
  intros Hd Hu. unfold untimed_checks in Hu.
  destruct data as [|b0 data]; [discriminate|].
  destruct (Byte.eqb b0 x80) eqn:Hb; cbn [negb] in Hu; [|discriminate].
  destruct (struct_unpack_Q _) as [ts|] eqn:Hts; [|discriminate].
  destruct (hmac_sha256_verify _ _ _ _) eqn:Hmac; [|discriminate].
  destruct (aes_cbc_decrypt _ _ _ _) as [padded|] eqn:Hcbc; [|discriminate].
  destruct (pkcs7_unpad padded) as [p|] eqn:Hpad; [|discriminate].
  injection Hu as -> ->.
  unfold_M. rewrite Hd. unfold_M. rewrite Hb. unfold_M. rewrite Hts. unfold_M.
  destruct ttl as [ttl|]; unfold_M.
  - destruct (timestamp + ttl <? st_clock s); unfold_M; [reflexivity|].
    destruct (st_clock s + _MAX_CLOCK_SKEW <? timestamp); unfold_M;
      [reflexivity|].
    rewrite Hmac. unfold_M. rewrite Hcbc. unfold_M. rewrite Hpad. reflexivity.
  - destruct (st_clock s + _MAX_CLOCK_SKEW <? timestamp); unfold_M;
      [reflexivity|].
    rewrite Hmac. unfold_M. rewrite Hcbc. unfold_M. rewrite Hpad. reflexivity.
Qed.

(** C5: without a TTL, a token that is valid apart from its timestamp is
    rejected with [InvalidToken] exactly when the clock plus 60 seconds is
    earlier than the timestamp: 61 seconds ahead fails, 59 seconds ahead
    succeeds; the bound is the module constant, not an argument. *)
Theorem future_skew_check (token data : bytes) (s : state)
    (timestamp : Z) (plaintext : bytes) :
  urlsafe_b64decode token = Some data ->
  untimed_checks (st_self s) data = Some (timestamp, plaintext) ->
  _MAX_CLOCK_SKEW = 60 /\
  (st_clock s + 60 < timestamp ->
     fst (decrypt (PyBytes token) None s) = Raise InvalidToken) /\
  (~ st_clock s + 60 < timestamp ->
     fst (decrypt (PyBytes token) None s) = Ok plaintext) /\
  (timestamp = st_clock s + 61 ->
     fst (decrypt (PyBytes token) None s) = Raise InvalidToken) /\
  (timestamp = st_clock s + 59 ->
     fst (decrypt (PyBytes token) None s) = Ok plaintext).
Proof.
  intros Hd Hu. rewrite (decrypt_timed None s Hd Hu).
  change _MAX_CLOCK_SKEW with 60.
  split; [reflexivity|].
  destruct (Z.ltb_spec (st_clock s + 60) timestamp);
    repeat split; intros; try reflexivity; lia.
Qed.

(** C10: without a TTL, a token that is valid apart from its timestamp and
    whose timestamp is exactly the clock plus 60 seconds is accepted. *)
Theorem future_skew_boundary (token data : bytes) (s : state)
    (timestamp : Z) (plaintext : bytes) :
  urlsafe_b64decode token = Some data ->
  untimed_checks (st_self s) data = Some (timestamp, plaintext) ->
  timestamp = st_clock s + 60 ->
  fst (decrypt (PyBytes token) None s) = Ok plaintext.
Proof.
  intros Hd Hu Ht. rewrite (decrypt_timed None s Hd Hu).
  change _MAX_CLOCK_SKEW with 60.
  destruct (Z.ltb_spec (st_clock s + 60) timestamp); [lia|reflexivity].
Qed.

(** C6: with a TTL, a token whose timestamp plus the TTL is earlier than the
    clock is rejected with [InvalidToken]; a token that is otherwise valid
    and 100 seconds old fails with a TTL of 50 and succeeds with a TTL of
    200; without a TTL no age is too old. *)
Theorem ttl_check (token data : bytes) (s : state) (timestamp : Z) :
  urlsafe_b64decode token = Some data ->
  struct_unpack_Q (py_slice data (Some 1) (Some 9)) = Some timestamp ->
  (forall ttl, timestamp + ttl < st_clock s ->
     fst (decrypt (PyBytes token) (Some ttl) s) = Raise InvalidToken) /\
  (forall plaintext,
     untimed_checks (st_self s) data = Some (timestamp, plaintext) ->
     (forall ttl, ~ timestamp + ttl < st_clock s ->
        ~ st_clock s + 60 < timestamp ->
        fst (decrypt (PyBytes token) (Some ttl) s) = Ok plaintext) /\
     (timestamp = st_clock s - 100 ->
        fst (decrypt (PyBytes token) (Some 50) s) = Raise InvalidToken /\
        fst (decrypt (PyBytes token) (Some 200) s) = Ok plaintext) /\
     (timestamp <= st_clock s + 60 ->
        fst (decrypt (PyBytes token) None s) = Ok plaintext)).
Proof.
  intros Hd Hts. split.
  - intros ttl Hexp. apply Z.ltb_lt in Hexp.
    unfold_M. rewrite Hd. unfold_M.
    destruct data as [|b0 data].
    { unfold struct_unpack_Q in Hts. discriminate. }
    unfold_M. destruct (Byte.eqb b0 x80); unfold_M; [|reflexivity].
    rewrite Hts. unfold_M. rewrite Hexp. reflexivity.
  - intros plaintext Hu. change 60 with _MAX_CLOCK_SKEW.
    repeat split.
    + intros ttl Hlive Hskew. rewrite (decrypt_timed (Some ttl) s Hd Hu).
      destruct (Z.ltb_spec (timestamp + ttl) (st_clock s)); [lia|].
      destruct (Z.ltb_spec (st_clock s + _MAX_CLOCK_SKEW) timestamp);
        [lia|reflexivity].
    + rewrite (decrypt_timed (Some 50) s Hd Hu).
      destruct (Z.ltb_spec (timestamp + 50) (st_clock s)); [reflexivity|lia].
    + rewrite (decrypt_timed (Some 200) s Hd Hu).
      unfold _MAX_CLOCK_SKEW.
      destruct (Z.ltb_spec (timestamp + 200) (st_clock s)); [lia|].
      destruct (Z.ltb_spec (st_clock s + 60) timestamp); [lia|reflexivity].
    + intros Hskew. rewrite (decrypt_timed None s Hd Hu).
      unfold _MAX_CLOCK_SKEW in *.
      destruct (Z.ltb_spec (st_clock s + 60) timestamp); [lia|reflexivity].
Qed.

(** ** Authentication precedes decryption *)

(** Whatever the outcome, [decrypt] calls the cipher only after the MAC has
    been verified. *)
Lemma decrypt_cbc_after_mac (token : pyval) (ttl : option Z) (s : state) :
  mac_guards_decrypt false (events_of (decrypt token ttl) s) = true.
Proof.
  unfold events_of. destruct token as [token|txt]; unfold_M.
  2:{ rewrite <- (app_nil_r (st_log s)) at 2.
      rewrite skipn_length_app. reflexivity. }
  destruct ttl as [ttl|];
    repeat (next_check;
            repeat (rewrite <- (app_assoc (st_log s)); cbn [app]);
            try (rewrite skipn_length_app; reflexivity)).
Qed.

(** C3: when [decrypt] returns a plaintext, the HMAC of everything before
    the last 32 bytes has been verified against those 32 bytes under the
    signing key, with success, and that verification is the operation just
    before the CBC decryption whose unpadded output is returned. *)
Theorem plaintext_only_after_mac
    (token : pyval) (ttl : option Z) (s : state) (plaintext : bytes) :
  fst (decrypt token ttl s) = Ok plaintext ->
  exists tok data padded,
    token = PyBytes tok /\
    urlsafe_b64decode tok = Some data /\
    hmac_sha256_verify (_backend (st_self s)) (_signing_key (st_self s))
      (py_slice data None (Some (-32))) (py_slice data (Some (-32)) None)
      = true /\
    aes_cbc_decrypt (_backend (st_self s)) (_encryption_key (st_self s))
      (py_slice data (Some 9) (Some 25)) (py_slice data (Some 25) (Some (-32)))
      = Some padded /\
    pkcs7_unpad padded = Some plaintext /\
    events_of (decrypt token ttl) s =
      [ EvClock (st_clock s);
        EvHmacVerify (_signing_key (st_self s))
          (py_slice data None (Some (-32))) (py_slice data (Some (-32)) None)
          true;
        EvCbcDecrypt (_encryption_key (st_self s))
          (py_slice data (Some 9) (Some 25))
          (py_slice data (Some 25) (Some (-32)));
        EvUnpad padded ] /\
    mac_guards_decrypt false (events_of (decrypt token ttl) s) = true.
Proof.
  intros Hok. pose proof (decrypt_cbc_after_mac token ttl s) as Hguard.
  revert Hok Hguard. unfold events_of.
  destruct token as [token|txt]; unfold_M; [|discriminate].
  destruct (urlsafe_b64decode token) as [[|b0 data]|] eqn:Hd; unfold_M;
    try discriminate.
  destruct ttl as [ttl|]; repeat (next_check; try discriminate).
  all: intros [= ->] Hguard.
  all: repeat (rewrite <- (app_assoc (st_log s)) in *; cbn [app] in * ).
  all: rewrite skipn_length_app in *.
  all: eexists token, (b0 :: data), _.
  all: repeat split; try eassumption; reflexivity.
Qed.

(** ** Contracts of the collaborators *)

Hypothesis b64_decode_encode :
  forall d, urlsafe_b64decode (urlsafe_b64encode d) = Some d.

Hypothesis pkcs7_pad_blocks :
  forall d, (List.length (pkcs7_pad d) mod 16 = 0)%nat.

Hypothesis pkcs7_unpad_pad :
  forall d, pkcs7_unpad (pkcs7_pad d) = Some d.

Hypothesis aes_cbc_encrypt_blocks :
  forall backend key iv d,
    List.length key = 16%nat -> List.length iv = 16%nat ->
    (List.length d mod 16 = 0)%nat ->
    exists c, aes_cbc_encrypt backend key iv d = Some c.

Hypothesis aes_cbc_decrypt_encrypt :
  forall backend key iv d c,
    List.length key = 16%nat -> List.length iv = 16%nat ->
    aes_cbc_encrypt backend key iv d = Some c ->
    aes_cbc_decrypt backend key iv c = Some d.

Hypothesis hmac_sha256_length :
  forall backend key msg, List.length (hmac_sha256 backend key msg) = 32%nat.

Hypothesis hmac_sha256_verify_own :
  forall backend key msg,
    hmac_sha256_verify backend key msg (hmac_sha256 backend key msg) = true.

(** ** Key generation *)

(** [generate_key] returns the encoding of 32 drawn bytes, which [__init__]
    accepts. *)
Lemma generate_key_accepted (backend : option Backend) (s s' : state) :
  exists key,
    fst (generate_key s) = Ok key /\
    fst (__init__ key backend s') = Ok tt.
Proof.
  eexists. split; [reflexivity|].
  unfold_M. rewrite b64_decode_encode. unfold_M.
  rewrite length_map, length_seq. reflexivity.
Qed.

(** ** The token layout *)

Lemma token_slices (packed iv ct mac : bytes) :
  List.length packed = 8%nat -> List.length iv = 16%nat ->
  List.length mac = 32%nat ->
  let data := (x80 :: packed ++ iv ++ ct) ++ mac in
  py_slice data (Some 1) (Some 9) = packed /\
  py_slice data None (Some (-32)) = x80 :: packed ++ iv ++ ct /\
  py_slice data (Some (-32)) None = mac /\
  py_slice data (Some 9) (Some 25) = iv /\
  py_slice data (Some 25) (Some (-32)) = ct.
Proof.
  intros Hp Hi Hm data. repeat split.
  - replace data with ([x80] ++ packed ++ (iv ++ ct ++ mac))
      by (unfold data; cbn [app]; rewrite <- !app_assoc; reflexivity).
    replace (Some 9) with (Some (Z.of_nat (List.length [x80] + List.length packed)))
      by (rewrite Hp; reflexivity).
    apply (py_slice_mid [x80] packed).
  - replace (-32) with (- Z.of_nat (List.length mac)) by (rewrite Hm; reflexivity).
    apply py_slice_init_neg. lia.
  - replace (-32) with (- Z.of_nat (List.length mac)) by (rewrite Hm; reflexivity).
    apply py_slice_tail_neg. lia.
  - replace data with ((x80 :: packed) ++ iv ++ (ct ++ mac))
      by (unfold data; cbn [app]; rewrite <- !app_assoc; reflexivity).
    replace (Some 9) with (Some (Z.of_nat (List.length (x80 :: packed))))
      by (cbn [List.length]; rewrite Hp; reflexivity).
    replace (Some 25)
      with (Some (Z.of_nat (List.length (x80 :: packed) + List.length iv)))
      by (cbn [List.length]; rewrite Hp, Hi; reflexivity).
    apply py_slice_mid.
  - replace data with ((x80 :: packed ++ iv) ++ ct ++ mac)
      by (unfold data; cbn [app]; rewrite <- !app_assoc; reflexivity).
    replace (Some 25)
      with (Some (Z.of_nat (List.length (x80 :: packed ++ iv))))
      by (cbn [List.length]; rewrite length_app, Hp, Hi; reflexivity).
    replace (-32) with (- Z.of_nat (List.length mac)) by (rewrite Hm; reflexivity).
    apply py_slice_mid_neg. lia.
Qed.

(** What [_encrypt_from_parts] returns once the cipher has produced [ct]. *)
Lemma encrypt_from_parts_run
    (data : bytes) (current_time : Z) (iv ct : bytes) (s : state) :
  0 <= current_time < 2 ^ 64 ->
  aes_cbc_encrypt (_backend (st_self s)) (_encryption_key (st_self s)) iv
    (pkcs7_pad data) = Some ct ->
  fst (_encrypt_from_parts (PyBytes data) current_time iv s)
    = Ok (urlsafe_b64encode
            ((x80 :: be_bytes 8 current_time ++ iv ++ ct) ++
             hmac_sha256 (_backend (st_self s)) (_signing_key (st_self s))
               (x80 :: be_bytes 8 current_time ++ iv ++ ct))).
Proof.
  intros Ht Hct. unfold_M. rewrite Hct. unfold_M.
  rewrite (struct_pack_Q_total _ Ht). reflexivity.
Qed.

Lemma be_value_be_bytes_8 (v : Z) :
  0 <= v < 2 ^ 64 -> be_value (be_bytes 8 v) = v.
Proof.
  intros Hv.
  pose proof (struct_unpack_pack_Q _ _ (struct_pack_Q_total _ Hv)) as Hu.
  unfold struct_unpack_Q in Hu. rewrite length_be_bytes in Hu.
  cbn [Nat.eqb] in Hu. congruence.
Qed.

(** C7: for a timestamp that fits the 8-byte field and a 16-byte iv,
    [_encrypt_from_parts] returns the URL-safe base64 encoding of
    [0x80 || timestamp (8 bytes, big-endian) || iv || ciphertext || mac],
    where the ciphertext is the CBC encryption of the PKCS7-padded plaintext
    under the encryption key and the mac is the 32-byte HMAC-SHA256 of all
    that precedes it under the signing key; the output depends on nothing
    but the key material and these three arguments. *)
Theorem encrypt_from_parts_layout
    (data : bytes) (current_time : Z) (iv : bytes) (s : state) :
  0 <= current_time < 2 ^ 64 ->
  List.length iv = 16%nat ->
  List.length (_encryption_key (st_self s)) = 16%nat ->
  exists ciphertext,
    aes_cbc_encrypt (_backend (st_self s)) (_encryption_key (st_self s)) iv
      (pkcs7_pad data) = Some ciphertext /\
    let timestamp := be_bytes 8 current_time in
    let basic_parts := [x80] ++ timestamp ++ iv ++ ciphertext in
    let hmac :=
      hmac_sha256 (_backend (st_self s)) (_signing_key (st_self s))
        basic_parts in
    List.length timestamp = 8%nat /\
    be_value timestamp = current_time /\
    List.length hmac = 32%nat /\
    fst (_encrypt_from_parts (PyBytes data) current_time iv s)
      = Ok (urlsafe_b64encode (basic_parts ++ hmac)) /\
    forall s', st_self s' = st_self s ->
      fst (_encrypt_from_parts (PyBytes data) current_time iv s')
      = fst (_encrypt_from_parts (PyBytes data) current_time iv s).
Proof.
  intros Ht Hiv Hek.
  destruct (aes_cbc_encrypt_blocks (_backend (st_self s)) _ _ _ Hek Hiv
              (pkcs7_pad_blocks data)) as [ct Hct].
  exists ct. split; [exact Hct|]. cbv zeta.
  split; [apply length_be_bytes|].
  split; [apply be_value_be_bytes_8; exact Ht|].
  split; [apply hmac_sha256_length|].
  split.
  - apply encrypt_from_parts_run; assumption.
  - intros s' Hs'.
    rewrite (encrypt_from_parts_run data current_time iv ct s Ht Hct).
    rewrite <- Hs' in Hct |- *.
    apply encrypt_from_parts_run; assumption.
Qed.

(** A timestamp outside the unsigned 8-byte range makes [struct.pack] fail;
    [_encrypt_from_parts] does not handle the error. *)
Lemma encrypt_from_parts_timestamp_range
    (data : bytes) (current_time : Z) (iv : bytes) (s : state) :
  ~ 0 <= current_time < 2 ^ 64 ->
  List.length iv = 16%nat ->
  List.length (_encryption_key (st_self s)) = 16%nat ->
  fst (_encrypt_from_parts (PyBytes data) current_time iv s)
    = Raise StructError.
Proof.
  intros Ht Hiv Hek.
  destruct (aes_cbc_encrypt_blocks (_backend (st_self s)) _ _ _ Hek Hiv
              (pkcs7_pad_blocks data)) as [ct Hct].
  unfold_M. rewrite Hct. unfold_M. unfold struct_pack_Q.
  replace ((0 <=? current_time) && (current_time <? 2 ^ 64)) with false;
    [reflexivity|].
  symmetry. apply andb_false_iff.
  destruct (Z.leb_spec 0 current_time); [right|left; reflexivity].
  apply Z.ltb_ge. lia.
Qed.

(** ** Round trip *)

(** A token built by [_encrypt_from_parts] decodes to bytes that pass every
    check of [decrypt] that does not read the clock. *)
Lemma encrypted_token_passes_checks
    (plaintext : bytes) (current_time : Z) (iv : bytes) (s : state) :
  0 <= current_time < 2 ^ 64 ->
  List.length iv = 16%nat ->
  List.length (_encryption_key (st_self s)) = 16%nat ->
  exists token data,
    fst (_encrypt_from_parts (PyBytes plaintext) current_time iv s) = Ok token /\
    urlsafe_b64decode token = Some data /\
    untimed_checks (st_self s) data = Some (current_time, plaintext).
Proof.
  intros Ht Hiv Hek.
  destruct (aes_cbc_encrypt_blocks (_backend (st_self s)) _ _ _ Hek Hiv
              (pkcs7_pad_blocks plaintext)) as [ct Hct].
  eexists _, _. split; [exact (encrypt_from_parts_run plaintext current_time iv ct s Ht Hct)|].
  split; [apply b64_decode_encode|].
  destruct (token_slices (be_bytes 8 current_time) iv ct _
              (length_be_bytes 8 current_time) Hiv
              (hmac_sha256_length (_backend (st_self s))
                 (_signing_key (st_self s))
                 (x80 :: be_bytes 8 current_time ++ iv ++ ct)))
    as (S1 & S2 & S3 & S4 & S5).
  cbv zeta in S1, S2, S3, S4, S5.
  unfold untimed_checks. cbn [app Byte.eqb negb].
  cbn [app] in S1, S2, S3, S4, S5.
  rewrite S1, S2, S3, S4, S5.
  rewrite (struct_unpack_pack_Q _ _ (struct_pack_Q_total _ Ht)).
  rewrite hmac_sha256_verify_own.
  rewrite (aes_cbc_decrypt_encrypt _ _ _ _ _ Hek Hiv Hct).
  rewrite pkcs7_unpad_pad. reflexivity.
Qed.

(** C1: with a key that decodes to 32 bytes, [encrypt] returns a token, and
    [decrypt] under the same key material and without a TTL returns the
    plaintext it was built from, whenever the decoder's clock is not more
    than 60 seconds behind the encoder's (in particular when it is equal or
    later). *)
Theorem encrypt_decrypt_roundtrip
    (key k : bytes) (backend : option Backend) (plaintext : bytes)
    (s0 : state) :
  urlsafe_b64decode key = Some k ->
  List.length k = 32%nat ->
  0 <= st_clock (snd (__init__ key backend s0)) < 2 ^ 64 ->
  fst (__init__ key backend s0) = Ok tt /\
  exists token,
    fst (encrypt (PyBytes plaintext) (snd (__init__ key backend s0)))
      = Ok token /\
    forall s2,
      st_self s2 = st_self (snd (__init__ key backend s0)) ->
      st_clock (snd (__init__ key backend s0)) <= st_clock s2 + 60 ->
      fst (decrypt (PyBytes token) None s2) = Ok plaintext.
Proof.
  intros Hk Hlen. rewrite (init_run key k backend s0 Hk), Hlen.
  cbn [Nat.eqb fst snd]. intros Hclock.
  split; [reflexivity|].
  set (s1 := mkState _ _ _ _ _) in *.
  assert (Hek : List.length (_encryption_key (st_self s1)) = 16%nat)
    by (cbn [s1 st_self _encryption_key]; rewrite length_skipn; lia).
  set (iv := map (st_entropy s1) (seq (st_cursor s1) 16)).
  assert (Hiv : List.length iv = 16%nat)
    by (unfold iv; rewrite length_map, length_seq; reflexivity).
  set (s1' := mkState (st_self s1) (st_clock s1) (st_entropy s1)
                (st_cursor s1 + 16)
                ((st_log s1 ++ [EvClock (st_clock s1)]) ++ [EvUrandom 16])).
  assert (Hek' : List.length (_encryption_key (st_self s1')) = 16%nat)
    by exact Hek.
  destruct (encrypted_token_passes_checks plaintext (st_clock s1) iv s1'
              Hclock Hiv Hek')
    as (token & data & Hrun & Hd & Hu).
  exists token. split.
  - exact Hrun.
  - intros s2 Hs2 Hskew.
    change (st_self s1') with (st_self s1) in Hu. rewrite <- Hs2 in Hu.
    rewrite (decrypt_timed None s2 Hd Hu). unfold _MAX_CLOCK_SKEW.
    destruct (Z.ltb_spec (st_clock s2 + 60) (st_clock s1)); [lia|reflexivity].
Qed.


(** * Further properties of the module *)

(** ** Construction fails without a trace *)

(** X1: [__init__] either succeeds or leaves [self] and the world as they were:
    it fails with the decoder's error when the key is not base64, with
    [ValueError] when the decoded key is not 32 bytes long, and in no other
    way. *)
Theorem init_failure_atomic
    (key : bytes) (backend : option Backend) (s s' : state) (e : exn) :
  __init__ key backend s = (Raise e, s') ->
  s' = s /\
  ((urlsafe_b64decode key = None /\ e = BinasciiError) \/
   (exists k, urlsafe_b64decode key = Some k /\
              List.length k <> 32%nat /\ e = ValueError)).
Proof.
  destruct (urlsafe_b64decode key) as [k|] eqn:Hk.
  - rewrite (init_run key k backend s Hk).
    destruct (Nat.eqb_spec (List.length k) 32) as [|Hlen]; [discriminate|].
    intros [= <- <-]. split; [reflexivity|]. right. exists k. auto.
  - unfold_M. rewrite Hk. intros [= <- <-]. auto.
Qed.

(** ** The outcomes of [decrypt] *)


(** ** What the methods leave alone *)

(** X3: [decrypt] changes nothing but the record of calls: it draws no random
    bytes, and it calls nothing but the clock, the MAC verification, the CBC
    decryption and the unpadder; it never pads, encrypts or signs. *)
Theorem decrypt_reads_only (token : pyval) (ttl : option Z) (s : state) :
  snd (decrypt token ttl s) =
    mkState (st_self s) (st_clock s) (st_entropy s) (st_cursor s)
      (st_log s ++ events_of (decrypt token ttl) s) /\
  forallb is_decoder_op (events_of (decrypt token ttl) s) = true.
Proof.
  unfold events_of. destruct token as [token|txt]; unfold_M.
  2:{ rewrite skipn_all, app_nil_r. destruct s; split; reflexivity. }
  destruct ttl as [ttl|];
    repeat (next_check;
            repeat (rewrite <- (app_assoc (st_log s)); cbn [app]);
            try (rewrite skipn_length_app; split; reflexivity)).
Qed.


(** ** Rejection before and at the MAC *)

(** X5: a token that decodes to 1 to 8 bytes is rejected with [InvalidToken]:
    whatever its first byte, it has no complete timestamp field. *)
Theorem truncated_token_rejected
    (token data : bytes) (ttl : option Z) (s : state) :
  urlsafe_b64decode token = Some data ->
  (0 < List.length data < 9)%nat ->
  fst (decrypt (PyBytes token) ttl s) = Raise InvalidToken /\
  events_of (decrypt (PyBytes token) ttl) s = [EvClock (st_clock s)].
Proof.
  intros Hd Hlen.
  split; [exact (decrypt_short_data_raises_InvalidToken token data ttl s
                   Hd Hlen)|].
  destruct data as [|b0 data]; [cbn in Hlen; lia|].
  cbn [List.length] in Hlen.
  unfold events_of. unfold_M. rewrite Hd. unfold_M.
  destruct (Byte.eqb b0 x80); unfold_M;
    [rewrite timestamp_field_short by lia; unfold_M|];
    apply skipn_length_app.
Qed.

(** X6: a token with a wrong version byte, with fewer than 8 bytes after it,
    past its TTL, or stamped more than 60 seconds ahead of the clock is
    rejected with [InvalidToken] before any MAC, cipher or padding
    operation: the only call made is the reading of the clock. *)
Theorem early_rejection_calls_no_primitive
    (token data : bytes) (ttl : option Z) (s : state) :
  urlsafe_b64decode token = Some data ->
  data <> [] ->
  (hd_error data <> Some x80 \/
   struct_unpack_Q (py_slice data (Some 1) (Some 9)) = None \/
   exists timestamp,
     struct_unpack_Q (py_slice data (Some 1) (Some 9)) = Some timestamp /\
     ((exists t, ttl = Some t /\ timestamp + t < st_clock s) \/
      st_clock s + 60 < timestamp)) ->
  fst (decrypt (PyBytes token) ttl s) = Raise InvalidToken /\
  events_of (decrypt (PyBytes token) ttl) s = [EvClock (st_clock s)].
Proof.
  intros Hd Hne Hbad. unfold events_of. unfold_M. rewrite Hd. unfold_M.
  destruct data as [|b0 data]; [contradiction Hne; reflexivity|].
  unfold_M.
  destruct (Byte.eqb b0 x80) eqn:Hb; unfold_M;
    [|rewrite skipn_length_app; split; reflexivity].
  apply Byte.byte_dec_bl in Hb. subst b0.
  destruct Hbad as [Hv | [Hts | (ts & Hts & Hold)]].
  - contradiction Hv. reflexivity.
  - rewrite Hts. unfold_M. rewrite skipn_length_app. split; reflexivity.
  - rewrite Hts. unfold_M. unfold _MAX_CLOCK_SKEW.
    destruct Hold as [(t & -> & Ht) | Hskew].
    + apply Z.ltb_lt in Ht. unfold_M. rewrite Ht. unfold_M.
      rewrite skipn_length_app. split; reflexivity.
    + apply Z.ltb_lt in Hskew.
      destruct ttl as [t|]; unfold_M;
        [destruct (ts + t <? st_clock s); unfold_M|];
        rewrite ?Hskew; unfold_M;
        rewrite skipn_length_app; split; reflexivity.
Qed.

(** X7: a token that is well formed and fresh but whose last 32 bytes fail the
    MAC verification is rejected with [InvalidToken], and neither the
    cipher nor the unpadder is called on it. *)
Theorem forged_token_never_decrypted
    (token data : bytes) (ttl : option Z) (s : state) (timestamp : Z) :
  urlsafe_b64decode token = Some data ->
  hd_error data = Some x80 ->
  struct_unpack_Q (py_slice data (Some 1) (Some 9)) = Some timestamp ->
  (forall t, ttl = Some t -> ~ timestamp + t < st_clock s) ->
  ~ st_clock s + 60 < timestamp ->
  hmac_sha256_verify (_backend (st_self s)) (_signing_key (st_self s))
    (py_slice data None (Some (-32))) (py_slice data (Some (-32)) None)
    = false ->
  fst (decrypt (PyBytes token) ttl s) = Raise InvalidToken /\
  events_of (decrypt (PyBytes token) ttl) s =
    [ EvClock (st_clock s);
      EvHmacVerify (_signing_key (st_self s))
        (py_slice data None (Some (-32))) (py_slice data (Some (-32)) None)
        false ].
Proof.
  intros Hd Hv Hts Httl Hskew Hmac. unfold events_of.
  unfold_M. rewrite Hd. unfold_M.
  destruct data as [|b0 data]; [discriminate|].
  injection Hv as ->. unfold_M.
  change (Byte.eqb x80 x80) with true. unfold_M. rewrite Hts. unfold_M.
  assert (Hs : (st_clock s + _MAX_CLOCK_SKEW <? timestamp) = false)
    by (apply Z.ltb_ge; unfold _MAX_CLOCK_SKEW; lia).
  destruct ttl as [t|]; unfold_M.
  - assert (Ht : (timestamp + t <? st_clock s) = false)
      by (apply Z.ltb_ge; specialize (Httl t eq_refl); lia).
    rewrite Ht. unfold_M. rewrite Hs. unfold_M. rewrite Hmac. unfold_M.
    rewrite <- (app_assoc (st_log s)). cbn [app].
    rewrite skipn_length_app. split; reflexivity.
  - rewrite Hs. unfold_M. rewrite Hmac. unfold_M.
    rewrite <- (app_assoc (st_log s)). cbn [app].
    rewrite skipn_length_app. split; reflexivity.
Qed.

(** ** Acceptance *)

(** A plaintext comes only out of data that passes every check. *)
Lemma decrypt_ok_checks
    (token : bytes) (ttl : option Z) (s : state) (plaintext : bytes) :
  fst (decrypt (PyBytes token) ttl s) = Ok plaintext ->
  exists data timestamp,
    urlsafe_b64decode token = Some data /\
    untimed_checks (st_self s) data = Some (timestamp, plaintext) /\
    (forall t, ttl = Some t -> ~ timestamp + t < st_clock s) /\
    ~ st_clock s + 60 < timestamp.
Proof.
  unfold_M.
  destruct (urlsafe_b64decode token) as [[|b0 data]|] eqn:Hd; unfold_M;
    try discriminate.
  destruct (Byte.eqb b0 x80) eqn:Hb; unfold_M; try discriminate.
  destruct (struct_unpack_Q _) as [ts|] eqn:Hts; unfold_M; try discriminate.
  unfold _MAX_CLOCK_SKEW.
  destruct ttl as [t|]; unfold_M;
    [destruct (Z.ltb_spec (ts + t) (st_clock s)); unfold_M; try discriminate|];
    (destruct (Z.ltb_spec (st_clock s + 60) ts); unfold_M; try discriminate);
    (destruct (hmac_sha256_verify _ _ _ _) eqn:Hmac; unfold_M;
       try discriminate);
    (destruct (aes_cbc_decrypt _ _ _ _) as [padded|] eqn:Hcbc; unfold_M;
       try discriminate);
    (destruct (pkcs7_unpad padded) as [p|] eqn:Hpad; unfold_M;
       try discriminate);
    intros [= ->]; exists (b0 :: data), ts;
    (split; [reflexivity|]);
    (split; [unfold untimed_checks; rewrite Hb; cbn [negb];
             rewrite Hts, Hmac, Hcbc, Hpad; reflexivity|]);
    (split; [|lia]).
  - intros t' [= <-]. lia.
  - intros t' [=].
Qed.

(** X8: [decrypt] returns a plaintext exactly for the tokens that decode to
    data passing the version, timestamp, MAC, cipher and padding checks with
    that plaintext, and whose timestamp is neither past the TTL (when one is
    given) nor more than 60 seconds ahead of the clock. *)
Theorem decrypt_accepts_iff
    (token : bytes) (ttl : option Z) (s : state) (plaintext : bytes) :
  fst (decrypt (PyBytes token) ttl s) = Ok plaintext <->
  exists data timestamp,
    urlsafe_b64decode token = Some data /\
    untimed_checks (st_self s) data = Some (timestamp, plaintext) /\
    (forall t, ttl = Some t -> ~ timestamp + t < st_clock s) /\
    ~ st_clock s + 60 < timestamp.
Proof.
  split; [apply decrypt_ok_checks|].
  intros (data & ts & Hd & Hu & Httl & Hskew).
  rewrite (decrypt_timed ttl s Hd Hu). unfold _MAX_CLOCK_SKEW.
  destruct ttl as [t|].
  - specialize (Httl t eq_refl).
    destruct (Z.ltb_spec (ts + t) (st_clock s)); [lia|].
    destruct (Z.ltb_spec (st_clock s + 60) ts); [lia|reflexivity].
  - destruct (Z.ltb_spec (st_clock s + 60) ts); [lia|reflexivity].
Qed.

(** ** The TTL and the clock only restrict *)

(** X9: a token accepted with some TTL is accepted, with the same plaintext,
    with every larger TTL and with no TTL at all. *)
Theorem ttl_only_restricts
    (token : bytes) (ttl : Z) (s : state) (plaintext : bytes) :
  fst (decrypt (PyBytes token) (Some ttl) s) = Ok plaintext ->
  (forall ttl', ttl <= ttl' ->
     fst (decrypt (PyBytes token) (Some ttl') s) = Ok plaintext) /\
  fst (decrypt (PyBytes token) None s) = Ok plaintext.
Proof.
  intros Hok.
  destruct (decrypt_ok_checks token (Some ttl) s plaintext Hok)
    as (data & ts & Hd & Hu & Httl & Hskew).
  specialize (Httl ttl eq_refl).
  split; [intros ttl' Hle|];
    rewrite (decrypt_timed _ s Hd Hu); unfold _MAX_CLOCK_SKEW.
  - destruct (Z.ltb_spec (ts + ttl') (st_clock s)); [lia|].
    destruct (Z.ltb_spec (st_clock s + 60) ts); [lia|reflexivity].
  - destruct (Z.ltb_spec (st_clock s + 60) ts); [lia|reflexivity].
Qed.

(** X10: without a TTL a token never expires: once accepted, it is accepted with
    the same plaintext under the same key material at every later clock
    reading. *)
Theorem no_ttl_never_expires
    (token : bytes) (s s' : state) (plaintext : bytes) :
  fst (decrypt (PyBytes token) None s) = Ok plaintext ->
  st_self s' = st_self s ->
  st_clock s <= st_clock s' ->
  fst (decrypt (PyBytes token) None s') = Ok plaintext.
Proof.
  intros Hok Hself Hclock.
  destruct (decrypt_ok_checks token None s plaintext Hok)
    as (data & ts & Hd & Hu & _ & Hskew).
  rewrite <- Hself in Hu.
  rewrite (decrypt_timed None s' Hd Hu). unfold _MAX_CLOCK_SKEW.
  destruct (Z.ltb_spec (st_clock s' + 60) ts); [lia|reflexivity].
Qed.

(** ** Further contracts of the collaborators *)

Hypothesis hmac_sha256_verify_sound :
  forall backend key msg tag,
    hmac_sha256_verify backend key msg tag = true ->
    tag = hmac_sha256 backend key msg.

Hypothesis aes_cbc_encrypt_length :
  forall backend key iv d c,
    List.length key = 16%nat -> List.length iv = 16%nat ->
    aes_cbc_encrypt backend key iv d = Some c ->
    List.length c = List.length d.

Hypothesis aes_cbc_decrypt_length :
  forall backend key iv c d,
    List.length key = 16%nat -> List.length iv = 16%nat ->
    aes_cbc_decrypt backend key iv c = Some d ->
    List.length d = List.length c.

Hypothesis pkcs7_pad_length :
  forall d, List.length (pkcs7_pad d) = (16 * (List.length d / 16 + 1))%nat.

Hypothesis pkcs7_unpad_length :
  forall d p,
    pkcs7_unpad d = Some p ->
    (0 < List.length d)%nat /\ (List.length d mod 16 = 0)%nat /\
    (List.length p < List.length d)%nat.

(** ** Integrity *)

(** A plaintext comes only out of data whose last 32 bytes are the HMAC of
    what precedes them under the signing key. *)
Lemma decrypt_ok_tag
    (token : bytes) (ttl : option Z) (s : state) (plaintext : bytes) :
  fst (decrypt (PyBytes token) ttl s) = Ok plaintext ->
  exists data,
    urlsafe_b64decode token = Some data /\
    py_slice data (Some (-32)) None =
      hmac_sha256 (_backend (st_self s)) (_signing_key (st_self s))
        (py_slice data None (Some (-32))).
Proof.
  intros Hok.
  destruct (decrypt_ok_checks token ttl s plaintext Hok)
    as (data & ts & Hd & Hu & _).
  exists data. split; [exact Hd|].
  unfold untimed_checks in Hu.
  destruct data as [|b0 data]; [discriminate|].
  destruct (negb _); [discriminate|].
  destruct (struct_unpack_Q _); [|discriminate].
  destruct (hmac_sha256_verify _ _ _ _) eqn:Hmac; [|discriminate].
  apply hmac_sha256_verify_sound. exact Hmac.
Qed.

(** X11: whatever else is right about it, a non-empty token whose last 32 bytes
    are not the HMAC of the bytes before them under the signing key is
    rejected with [InvalidToken]. *)
Theorem unauthentic_token_rejected
    (token data : bytes) (ttl : option Z) (s : state) :
  urlsafe_b64decode token = Some data ->
  data <> [] ->
  py_slice data (Some (-32)) None <>
    hmac_sha256 (_backend (st_self s)) (_signing_key (st_self s))
      (py_slice data None (Some (-32))) ->
  fst (decrypt (PyBytes token) ttl s) = Raise InvalidToken.
Proof.
  intros Hd Hne Htag.
  destruct (fst (decrypt (PyBytes token) ttl s)) as [p|e] eqn:Hr.
  - destruct (decrypt_ok_tag token ttl s p Hr) as (data' & Hd' & Heq).
    rewrite Hd in Hd'. injection Hd' as <-. contradiction.
  - f_equal. apply (decrypt_failure_uniform token ttl s); [|exact Hr].
    rewrite Hd. intros [= ->]. contradiction Hne. reflexivity.
Qed.

(** X12: a token built under one key is rejected with [InvalidToken] under any
    key material whose HMAC of the signed part (version, timestamp, iv and
    ciphertext [ct]) differs from the one the token carries. *)
Theorem cross_key_rejected
    (plaintext : bytes) (t : Z) (iv ct : bytes) (s1 : state) :
  0 <= t < 2 ^ 64 ->
  List.length iv = 16%nat ->
  aes_cbc_encrypt (_backend (st_self s1)) (_encryption_key (st_self s1)) iv
    (pkcs7_pad plaintext) = Some ct ->
  exists token,
    fst (_encrypt_from_parts (PyBytes plaintext) t iv s1) = Ok token /\
    forall ttl s2,
      hmac_sha256 (_backend (st_self s2)) (_signing_key (st_self s2))
        (x80 :: be_bytes 8 t ++ iv ++ ct)
      <> hmac_sha256 (_backend (st_self s1)) (_signing_key (st_self s1))
           (x80 :: be_bytes 8 t ++ iv ++ ct) ->
      fst (decrypt (PyBytes token) ttl s2) = Raise InvalidToken.
Proof.
  intros Ht Hiv Hct.
  eexists.
  split; [exact (encrypt_from_parts_run plaintext t iv ct s1 Ht Hct)|].
  intros ttl s2 Hdiff.
  destruct (token_slices (be_bytes 8 t) iv ct _
              (length_be_bytes 8 t) Hiv
              (hmac_sha256_length (_backend (st_self s1))
                 (_signing_key (st_self s1))
                 (x80 :: be_bytes 8 t ++ iv ++ ct)))
    as (_ & S2 & S3 & _).
  cbv zeta in S2, S3.
  destruct (fst (decrypt (PyBytes _) ttl s2)) as [p|e] eqn:Hr.
  - destruct (decrypt_ok_tag _ ttl s2 p Hr) as (data' & Hd' & Heq).
    rewrite b64_decode_encode in Hd'.
    pose proof (f_equal (fun o => match o with Some x => x | None => data' end)
                  Hd') as Hx.
    cbv beta iota in Hx. rewrite <- Hx, S2, S3 in Heq.
    symmetry in Heq. contradiction.
  - f_equal. apply (decrypt_failure_uniform _ ttl s2 e) in Hr; [exact Hr|].
    rewrite b64_decode_encode. discriminate.
Qed.

(** ** The shape of accepted and of produced tokens *)

Lemma norm_index_range (len i : Z) :
  0 <= len -> 0 <= norm_index len i <= len.
Proof. unfold norm_index. intros H. destruct (i <? 0); lia. Qed.

Lemma length_py_slice {A : Type} (l : list A) (lo hi : option Z) :
  List.length (py_slice l lo hi) =
  Z.to_nat
    (match hi with
     | None => Z.of_nat (List.length l)
     | Some i => norm_index (Z.of_nat (List.length l)) i
     end
     - match lo with
       | None => 0
       | Some i => norm_index (Z.of_nat (List.length l)) i
       end).
Proof.
  unfold py_slice. rewrite length_firstn, length_skipn.
  pose proof (Nat2Z.is_nonneg (List.length l)) as Hl.
  destruct lo as [i|], hi as [j|];
    try pose proof (norm_index_range (Z.of_nat (List.length l)) i Hl);
    try pose proof (norm_index_range (Z.of_nat (List.length l)) j Hl);
    lia.
Qed.

(** X13: although [decrypt] never compares a length, a token it accepts has the
    wire layout: the decoded data starts with [0x80], is at least
    [1 + 8 + 16 + 16 + 32 = 73] bytes long, carries a ciphertext that is a
    positive multiple of 16 bytes, ends with the HMAC of everything before
    the last 32 bytes, and the plaintext is shorter than the ciphertext. *)
Theorem accepted_token_layout
    (token : bytes) (ttl : option Z) (s : state) (plaintext : bytes) :
  List.length (_encryption_key (st_self s)) = 16%nat ->
  fst (decrypt (PyBytes token) ttl s) = Ok plaintext ->
  exists data,
    urlsafe_b64decode token = Some data /\
    hd_error data = Some x80 /\
    (73 <= List.length data)%nat /\
    ((List.length data - 57) mod 16 = 0)%nat /\
    py_slice data (Some (-32)) None =
      hmac_sha256 (_backend (st_self s)) (_signing_key (st_self s))
        (py_slice data None (Some (-32))) /\
    (List.length plaintext < List.length data - 57)%nat.
Proof.
  intros Hek Hok.
  destruct (decrypt_ok_checks token ttl s plaintext Hok) as (data & ts & Hd & Hu & _).
  exists data. split; [exact Hd|].
  unfold untimed_checks in Hu.
  destruct data as [|b0 data]; [discriminate|].
  destruct (Byte.eqb b0 x80) eqn:Hb; cbn [negb] in Hu; [|discriminate].
  apply Byte.byte_dec_bl in Hb. subst b0.
  destruct (struct_unpack_Q _) as [ts'|]; [|discriminate].
  destruct (hmac_sha256_verify _ _ _ _) eqn:Hmac; [|discriminate].
  destruct (aes_cbc_decrypt _ _ _ _) as [padded|] eqn:Hcbc; [|discriminate].
  destruct (pkcs7_unpad padded) as [p|] eqn:Hpad; [|discriminate].
  injection Hu as _ ->.
  apply hmac_sha256_verify_sound in Hmac.
  pose proof (f_equal (@List.length byte) Hmac) as Htag.
  rewrite hmac_sha256_length, length_py_slice in Htag.
  set (d := x80 :: data) in *.
  assert (Hlen : (32 <= List.length d)%nat).
  { unfold norm_index in Htag.
    destruct (Z.ltb_spec (-32) 0); lia. }
  assert (Hiv : List.length (py_slice d (Some 9) (Some 25)) = 16%nat).
  { rewrite length_py_slice. unfold norm_index.
    destruct (Z.ltb_spec 9 0); destruct (Z.ltb_spec 25 0); lia. }
  apply (aes_cbc_decrypt_length _ _ _ _ _ Hek Hiv) in Hcbc.
  rewrite length_py_slice in Hcbc.
  assert (Hct : List.length padded = (List.length d - 57)%nat).
  { rewrite Hcbc. unfold norm_index.
    destruct (Z.ltb_spec 25 0); destruct (Z.ltb_spec (-32) 0); lia. }
  destruct (pkcs7_unpad_length _ _ Hpad) as (Hpos & Hmod & Hshort).
  rewrite Hct in Hpos, Hmod, Hshort.
  split; [reflexivity|].
  split.
  { pose proof (Nat.div_mod_eq (List.length d - 57) 16). lia. }
  split; [exact Hmod|].
  split; [exact Hmac|exact Hshort].
Qed.

(** X14: a token built from [n] bytes of plaintext is the encoding of
    [73 + 16 * (n / 16)] bytes that start with [0x80]: one byte of version,
    8 of timestamp, 16 of iv, the padded plaintext and 32 of MAC; the empty
    plaintext still takes one full block. *)
Theorem encrypted_token_size
    (plaintext : bytes) (current_time : Z) (iv : bytes) (s : state) :
  0 <= current_time < 2 ^ 64 ->
  List.length iv = 16%nat ->
  List.length (_encryption_key (st_self s)) = 16%nat ->
  exists raw,
    fst (_encrypt_from_parts (PyBytes plaintext) current_time iv s)
      = Ok (urlsafe_b64encode raw) /\
    hd_error raw = Some x80 /\
    List.length raw = (73 + 16 * (List.length plaintext / 16))%nat.
Proof.
  intros Ht Hiv Hek.
  assert (Hblocks : (List.length (pkcs7_pad plaintext) mod 16 = 0)%nat)
    by (rewrite pkcs7_pad_length, Nat.mul_comm; apply Nat.Div0.mod_mul).
  destruct (aes_cbc_encrypt_blocks (_backend (st_self s)) _ _ _ Hek Hiv
              Hblocks) as [ct Hct].
  eexists. split; [exact (encrypt_from_parts_run plaintext current_time iv ct s
                            Ht Hct)|].
  split; [reflexivity|].
  rewrite length_app. cbn [List.length]. rewrite !length_app.
  rewrite length_be_bytes, Hiv, hmac_sha256_length.
  rewrite (aes_cbc_encrypt_length _ _ _ _ _ Hek Hiv Hct), pkcs7_pad_length.
  lia.
Qed.

(** X15: a timestamp that is negative or at least [2^64] makes
    [_encrypt_from_parts] raise [struct.error], which it does not handle;
    by then the plaintext has been padded and encrypted, and no MAC has
    been computed. *)
Theorem timestamp_out_of_range_raises
    (data : bytes) (current_time : Z) (iv ct : bytes) (s : state) :
  ~ 0 <= current_time < 2 ^ 64 ->
  aes_cbc_encrypt (_backend (st_self s)) (_encryption_key (st_self s)) iv
    (pkcs7_pad data) = Some ct ->
  fst (_encrypt_from_parts (PyBytes data) current_time iv s)
    = Raise StructError /\
  events_of (_encrypt_from_parts (PyBytes data) current_time iv) s =
    [ EvPad data;
      EvCbcEncrypt (_encryption_key (st_self s)) iv (pkcs7_pad data) ].
Proof.
  intros Ht Hct. unfold events_of. unfold_M. rewrite Hct. unfold_M.
  unfold struct_pack_Q.
  replace ((0 <=? current_time) && (current_time <? 2 ^ 64)) with false.
  - unfold_M. rewrite <- (app_assoc (st_log s)). cbn [app].
    rewrite skipn_length_app. split; reflexivity.
  - symmetry. apply andb_false_iff.
    destruct (Z.leb_spec 0 current_time); [right|left; reflexivity].
    apply Z.ltb_ge. lia.
Qed.

(** ** Round trip with a TTL *)

(** X16: a token built at time [t] is, under the same key material, decrypted to
    its plaintext at every clock reading and TTL for which it is neither
    expired ([t + ttl] earlier than the clock) nor more than 60 seconds
    ahead of the clock, and rejected with [InvalidToken] otherwise. *)
Theorem roundtrip_with_ttl
    (plaintext : bytes) (t : Z) (iv : bytes) (s : state) :
  0 <= t < 2 ^ 64 ->
  List.length iv = 16%nat ->
  List.length (_encryption_key (st_self s)) = 16%nat ->
  exists token,
    fst (_encrypt_from_parts (PyBytes plaintext) t iv s) = Ok token /\
    forall ttl s2,
      st_self s2 = st_self s ->
      fst (decrypt (PyBytes token) ttl s2) =
        if match ttl with
           | Some l => t + l <? st_clock s2
           | None => false
           end || (st_clock s2 + 60 <? t)
        then Raise InvalidToken
        else Ok plaintext.
Proof.
  intros Ht Hiv Hek.
  destruct (encrypted_token_passes_checks plaintext t iv s Ht Hiv Hek)
    as (token & data & Hrun & Hd & Hu).
  exists token. split; [exact Hrun|].
  intros ttl s2 Hs2. rewrite <- Hs2 in Hu.
  rewrite (decrypt_timed ttl s2 Hd Hu). unfold _MAX_CLOCK_SKEW.
  destruct (match ttl with Some l => t + l <? st_clock s2 | None => false end);
    [reflexivity|].
  destruct (st_clock s2 + 60 <? t); reflexivity.
Qed.

(** ** What [encrypt] puts into the token *)

(** X17: [encrypt] stamps the token with the clock reading and with the 16 bytes
    it draws from the random source, and moves the source on by 16 bytes, so
    that the next call draws other bytes. *)
Theorem encrypt_stamps_clock_and_iv (plaintext : bytes) (s : state) :
  0 <= st_clock s < 2 ^ 64 ->
  List.length (_encryption_key (st_self s)) = 16%nat ->
  exists token data,
    fst (encrypt (PyBytes plaintext) s) = Ok token /\
    st_cursor (snd (encrypt (PyBytes plaintext) s)) = (st_cursor s + 16)%nat /\
    urlsafe_b64decode token = Some data /\
    struct_unpack_Q (py_slice data (Some 1) (Some 9)) = Some (st_clock s) /\
    py_slice data (Some 9) (Some 25)
      = map (st_entropy s) (seq (st_cursor s) 16).
Proof.
  intros Ht Hek.
  set (iv := map (st_entropy s) (seq (st_cursor s) 16)).
  assert (Hiv : List.length iv = 16%nat)
    by (unfold iv; rewrite length_map, length_seq; reflexivity).
  destruct (aes_cbc_encrypt_blocks (_backend (st_self s)) _ _ _ Hek Hiv
              (pkcs7_pad_blocks plaintext)) as [ct Hct].
  destruct (token_slices (be_bytes 8 (st_clock s)) iv ct _
              (length_be_bytes 8 (st_clock s)) Hiv
              (hmac_sha256_length (_backend (st_self s))
                 (_signing_key (st_self s))
                 (x80 :: be_bytes 8 (st_clock s) ++ iv ++ ct)))
    as (S1 & _ & _ & S4 & _).
  cbv zeta in S1, S4.
  eexists _, _. unfold_M. fold iv. rewrite Hct. unfold_M.
  rewrite (struct_pack_Q_total _ Ht). unfold_M.
  split; [reflexivity|]. split; [reflexivity|].
  split; [apply b64_decode_encode|].
  rewrite S1, S4.
  split; [|reflexivity].
  apply struct_unpack_pack_Q, struct_pack_Q_total, Ht.
Qed.

(** ** Generated keys *)

(** X18: [generate_key] draws 32 bytes from the random source and returns their
    encoding; [__init__] accepts it and takes the first 16 drawn bytes as
    signing key and the last 16 as encryption key. *)
Theorem generate_key_material
    (backend : option Backend) (s s0 : state) :
  exists key,
    fst (generate_key s) = Ok key /\
    st_cursor (snd (generate_key s)) = (st_cursor s + 32)%nat /\
    events_of generate_key s = [EvUrandom 32] /\
    fst (__init__ key backend s0) = Ok tt /\
    _signing_key (st_self (snd (__init__ key backend s0)))
      = map (st_entropy s) (seq (st_cursor s) 16) /\
    _encryption_key (st_self (snd (__init__ key backend s0)))
      = map (st_entropy s) (seq (st_cursor s + 16) 16).
Proof.
  eexists. split; [reflexivity|]. split; [reflexivity|].
  split; [unfold events_of; unfold_M; apply skipn_length_app|].
  rewrite (init_run _ _ backend s0 (b64_decode_encode _)).
  rewrite length_map, length_seq. cbn [Nat.eqb fst snd st_self].
  cbn [_signing_key _encryption_key].
  replace (seq (st_cursor s) 32)
    with (seq (st_cursor s) 16 ++ seq (st_cursor s + 16) 16)
    by (symmetry; apply (seq_app 16 16)).
  rewrite map_app, firstn_app, skipn_app, length_map, length_seq.
  rewrite Nat.sub_diag, firstn_all2, skipn_all2
    by (rewrite length_map, length_seq; lia).
  cbn [firstn skipn app]. rewrite app_nil_r.
  repeat split; reflexivity.
Qed.

End FernetTheory.

(** ** The reference collaborators meet the contracts *)

Lemma ref_char_sextet_char (n : Z) :
  0 <= n < 64 -> Ref.char_sextet (Ref.sextet_char n) = Some n.
Proof.
  intros Hn. rewrite <- (Z2Nat.id n) at 2 by lia.
  unfold Ref.sextet_char.
  assert (Hm : (Z.to_nat n < 64)%nat) by lia.
  generalize dependent (Z.to_nat n). clear n Hn. intros m Hm.
  do 64 (destruct m as [|m]; [reflexivity|]). lia.
Qed.

Lemma ref_pad_char_sextet : Ref.char_sextet Ref.pad_char = None.
Proof. reflexivity. Qed.

Lemma sextets_of_byte (a : byte) :
  0 <= Z_of_byte a / 4 < 64 /\ 0 <= Z_of_byte a mod 4 * 16 < 64 /\
  0 <= Z_of_byte a mod 16 * 4 < 64 /\ 0 <= Z_of_byte a mod 64 < 64.
Proof.
  pose proof (Z_of_byte_range a).
  repeat split; Z.div_mod_to_equations; lia.
Qed.

Lemma ref_b64decode_triple (a b c : byte) (t : bytes) :
  Ref.b64decode (Ref.b64encode (a :: b :: c :: t)) =
  match Ref.b64decode (Ref.b64encode t) with
  | Some t' => Some (a :: b :: c :: t')
  | None => None
  end.
Proof.
  pose proof (Z_of_byte_range a) as Ha.
  pose proof (Z_of_byte_range b) as Hb.
  pose proof (Z_of_byte_range c) as Hc.
  cbn [Ref.b64encode Ref.b64decode].
  rewrite !ref_char_sextet_char by (Z.div_mod_to_equations; lia).
  replace (Z_of_byte a / 4 * 4 + (Z_of_byte a mod 4 * 16 + Z_of_byte b / 16) / 16)
    with (Z_of_byte a) by (Z.div_mod_to_equations; lia).
  replace ((Z_of_byte a mod 4 * 16 + Z_of_byte b / 16) mod 16 * 16 +
           (Z_of_byte b mod 16 * 4 + Z_of_byte c / 64) / 4)
    with (Z_of_byte b) by (Z.div_mod_to_equations; lia).
  replace ((Z_of_byte b mod 16 * 4 + Z_of_byte c / 64) mod 4 * 64 +
           Z_of_byte c mod 64)
    with (Z_of_byte c) by (Z.div_mod_to_equations; lia).
  rewrite !byte_of_Z_of_byte. reflexivity.
Qed.

Lemma ref_b64decode_encode_upto (n : nat) (d : bytes) :
  (List.length d <= n)%nat -> Ref.b64decode (Ref.b64encode d) = Some d.
Proof.
  revert d. induction n as [|n IH]; intros d Hd.
  - destruct d; [reflexivity|simpl in Hd; lia].
  - destruct d as [|a [|b [|c t]]].
    + reflexivity.
    + pose proof (Z_of_byte_range a) as Ha.
      cbn [Ref.b64encode Ref.b64decode].
      rewrite !ref_char_sextet_char by (Z.div_mod_to_equations; lia).
      rewrite ref_pad_char_sextet.
      replace (Z_of_byte a / 4 * 4 + Z_of_byte a mod 4 * 16 / 16)
        with (Z_of_byte a) by (Z.div_mod_to_equations; lia).
      rewrite byte_of_Z_of_byte. reflexivity.
    + pose proof (Z_of_byte_range a) as Ha.
      pose proof (Z_of_byte_range b) as Hb.
      cbn [Ref.b64encode Ref.b64decode].
      rewrite !ref_char_sextet_char by (Z.div_mod_to_equations; lia).
      rewrite ref_pad_char_sextet.
      replace (Z_of_byte a / 4 * 4 + (Z_of_byte a mod 4 * 16 + Z_of_byte b / 16) / 16)
        with (Z_of_byte a) by (Z.div_mod_to_equations; lia).
      replace ((Z_of_byte a mod 4 * 16 + Z_of_byte b / 16) mod 16 * 16 +
               Z_of_byte b mod 16 * 4 / 4)
        with (Z_of_byte b) by (Z.div_mod_to_equations; lia).
      rewrite !byte_of_Z_of_byte. reflexivity.
    + rewrite ref_b64decode_triple, IH; [reflexivity|].
      cbn [List.length] in Hd. lia.
Qed.

Lemma ref_b64_decode_encode (d : bytes) :
  Ref.b64decode (Ref.b64encode d) = Some d.
Proof. apply (ref_b64decode_encode_upto (List.length d)). lia. Qed.


Lemma ref_pad_size (d : bytes) :
  (1 <= 16 - List.length d mod 16 <= 16)%nat.
Proof.
  pose proof (Nat.mod_upper_bound (List.length d) 16). lia.
Qed.

Lemma ref_pkcs7_pad_blocks (d : bytes) :
  (List.length (Ref.pkcs7_pad d) mod 16 = 0)%nat.
Proof.
  unfold Ref.pkcs7_pad. rewrite length_app, repeat_length.
  pose proof (Nat.mod_upper_bound (List.length d) 16 ltac:(lia)) as Hm.
  pose proof (Nat.div_mod_eq (List.length d) 16) as Hd.
  replace (List.length d + (16 - List.length d mod 16))%nat
    with ((List.length d / 16 + 1) * 16)%nat by lia.
  apply Nat.Div0.mod_mul.
Qed.

Lemma last_app_repeat {A : Type} (l : list A) (x y : A) (n : nat) :
  (0 < n)%nat -> last (l ++ repeat x n) y = x.
Proof.
  intros Hn. destruct n as [|n]; [lia|].
  cbn [repeat]. rewrite repeat_cons, app_assoc. apply last_last.
Qed.

Lemma forallb_repeat_eqb (b : byte) (n : nat) :
  forallb (fun x => Byte.eqb x b) (repeat b n) = true.
Proof.
  induction n as [|n IH]; [reflexivity|].
  cbn [repeat forallb]. rewrite IH, (Byte.byte_dec_lb eq_refl). reflexivity.
Qed.

Lemma ref_pkcs7_unpad_pad (d : bytes) :
  Ref.pkcs7_unpad (Ref.pkcs7_pad d) = Some d.
Proof.
  pose proof (ref_pkcs7_pad_blocks d) as Hblocks.
  pose proof (ref_pad_size d) as Hn.
  unfold Ref.pkcs7_unpad. rewrite Hblocks.
  unfold Ref.pkcs7_pad in *.
  set (n := (16 - List.length d mod 16)%nat) in *.
  rewrite last_app_repeat by lia.
  rewrite Z_of_byte_of_Z, Z.mod_small, Nat2Z.id by lia.
  rewrite length_app, repeat_length.
  replace (List.length d + n - n)%nat with (List.length d) by lia.
  replace (Nat.eqb (List.length d + n) 0) with false
    by (symmetry; apply Nat.eqb_neq; lia).
  replace (Nat.eqb n 0) with false by (symmetry; apply Nat.eqb_neq; lia).
  replace (Nat.ltb 16 n) with false by (symmetry; apply Nat.ltb_ge; lia).
  cbn [Nat.eqb negb orb].
  rewrite skipn_app, skipn_all, Nat.sub_diag. cbn [skipn app].
  rewrite forallb_repeat_eqb.
  rewrite firstn_app, firstn_all, Nat.sub_diag. cbn [firstn].
  rewrite app_nil_r. reflexivity.
Qed.

Lemma ref_xor_byte_cancel (a b : byte) :
  Ref.xor_byte (Ref.xor_byte a b) b = a.
Proof.
  unfold Ref.xor_byte.
  rewrite <- (Byte.of_bits_to_bits a) at 2.
  destruct (Byte.to_bits a) as (a0 & a1 & a2 & a3 & a4 & a5 & a6 & a7).
  destruct (Byte.to_bits b) as (b0 & b1 & b2 & b3 & b4 & b5 & b6 & b7).
  rewrite Byte.to_bits_of_bits.
  rewrite !xorb_assoc, !xorb_nilpotent, !xorb_false_r. reflexivity.
Qed.

Lemma ref_length_xor_bytes (a b : bytes) :
  List.length a = List.length b ->
  List.length (Ref.xor_bytes a b) = List.length a.
Proof.
  revert b. induction a as [|x a IH]; intros [|y b] H; try discriminate;
    [reflexivity|].
  cbn [Ref.xor_bytes List.length] in *. rewrite IH; congruence.
Qed.

Lemma ref_xor_bytes_cancel (a b : bytes) :
  List.length a = List.length b ->
  Ref.xor_bytes (Ref.xor_bytes a b) b = a.
Proof.
  revert b. induction a as [|x a IH]; intros [|y b] H; try discriminate;
    [reflexivity|].
  cbn [Ref.xor_bytes List.length] in *.
  rewrite ref_xor_byte_cancel, IH; congruence.
Qed.

Lemma ref_length_block_encrypt (key block : bytes) :
  List.length block = List.length key ->
  List.length (Ref.block_encrypt key block) = List.length key.
Proof.
  intros H. unfold Ref.block_encrypt.
  rewrite ref_length_xor_bytes; rewrite length_rev; congruence.
Qed.

Lemma ref_block_decrypt_encrypt (key block : bytes) :
  List.length block = List.length key ->
  Ref.block_decrypt key (Ref.block_encrypt key block) = block.
Proof.
  intros H. unfold Ref.block_decrypt, Ref.block_encrypt.
  rewrite ref_xor_bytes_cancel by (rewrite length_rev; exact H).
  apply rev_involutive.
Qed.

Lemma firstn_app_exact {A : Type} (a b : list A) (n : nat) :
  List.length a = n -> firstn n (a ++ b) = a.
Proof.
  intros <-. rewrite firstn_app, firstn_all, Nat.sub_diag.
  cbn [firstn]. apply app_nil_r.
Qed.

Lemma skipn_app_exact {A : Type} (a b : list A) (n : nat) :
  List.length a = n -> skipn n (a ++ b) = b.
Proof.
  intros <-. rewrite skipn_app, skipn_all, Nat.sub_diag. reflexivity.
Qed.

Lemma ref_length_cbc_encrypt_blocks (n : nat) (key prev d : bytes) :
  List.length key = 16%nat -> List.length prev = 16%nat ->
  List.length d = (16 * n)%nat ->
  List.length (Ref.cbc_encrypt_blocks n key prev d) = (16 * n)%nat.
Proof.
  intros Hk. revert prev d. induction n as [|n IH]; intros prev d Hp Hd;
    [reflexivity|].
  cbn [Ref.cbc_encrypt_blocks].
  assert (Hx : List.length (Ref.xor_bytes (firstn 16 d) prev) = 16%nat)
    by (rewrite ref_length_xor_bytes; rewrite length_firstn; lia).
  assert (Hc : List.length
                 (Ref.block_encrypt key (Ref.xor_bytes (firstn 16 d) prev))
               = 16%nat)
    by (rewrite ref_length_block_encrypt; congruence).
  rewrite length_app, Hc, IH; [lia|exact Hc|rewrite length_skipn; lia].
Qed.

Lemma ref_cbc_decrypt_encrypt_blocks (n : nat) (key prev d : bytes) :
  List.length key = 16%nat -> List.length prev = 16%nat ->
  List.length d = (16 * n)%nat ->
  Ref.cbc_decrypt_blocks n key prev (Ref.cbc_encrypt_blocks n key prev d) = d.
Proof.
  intros Hk. revert prev d. induction n as [|n IH]; intros prev d Hp Hd.
  - destruct d; [reflexivity|discriminate].
  - cbn [Ref.cbc_encrypt_blocks Ref.cbc_decrypt_blocks].
    assert (Hf : List.length (firstn 16 d) = 16%nat)
      by (rewrite length_firstn; lia).
    assert (Hx : List.length (Ref.xor_bytes (firstn 16 d) prev) = 16%nat)
      by (rewrite ref_length_xor_bytes; lia).
    set (c := Ref.block_encrypt key (Ref.xor_bytes (firstn 16 d) prev)).
    assert (Hc : List.length c = 16%nat)
      by (unfold c; rewrite ref_length_block_encrypt; congruence).
    rewrite (firstn_app_exact c _ 16 Hc), (skipn_app_exact c _ 16 Hc).
    unfold c at 1. rewrite ref_block_decrypt_encrypt by congruence.
    rewrite ref_xor_bytes_cancel by congruence.
    rewrite IH; [apply firstn_skipn|exact Hc|rewrite length_skipn; lia].
Qed.

Lemma ref_blocks_length (d : bytes) :
  (List.length d mod 16 = 0)%nat ->
  List.length d = (16 * (List.length d / 16))%nat.
Proof.
  intros H. pose proof (Nat.div_mod_eq (List.length d) 16). lia.
Qed.

Lemma ref_cbc_encrypt_blocks (backend : unit) (key iv d : bytes) :
  List.length key = 16%nat -> List.length iv = 16%nat ->
  (List.length d mod 16 = 0)%nat ->
  exists c, Ref.cbc_encrypt backend key iv d = Some c.
Proof.
  intros _ _ H. unfold Ref.cbc_encrypt. rewrite H. eexists. reflexivity.
Qed.

Lemma ref_cbc_decrypt_encrypt (backend : unit) (key iv d c : bytes) :
  List.length key = 16%nat -> List.length iv = 16%nat ->
  Ref.cbc_encrypt backend key iv d = Some c ->
  Ref.cbc_decrypt backend key iv c = Some d.
Proof.
  intros Hk Hiv. unfold Ref.cbc_encrypt, Ref.cbc_decrypt.
  destruct (Nat.eqb_spec (List.length d mod 16) 0) as [Hd|]; [|discriminate].
  intros Hc.
  assert (Hc' : c = Ref.cbc_encrypt_blocks (List.length d / 16) key iv d)
    by congruence.
  subst c. clear Hc. pose proof (ref_blocks_length d Hd) as Hlen.
  rewrite (ref_length_cbc_encrypt_blocks _ key iv d Hk Hiv Hlen).
  rewrite Nat.mul_comm, Nat.Div0.mod_mul, Nat.div_mul by lia.
  cbn [Nat.eqb]. f_equal.
  apply ref_cbc_decrypt_encrypt_blocks; assumption.
Qed.

Lemma ref_mac_length (backend : unit) (key msg : bytes) :
  List.length (Ref.mac backend key msg) = 32%nat.
Proof. unfold Ref.mac. rewrite length_map, length_seq. reflexivity. Qed.

Lemma ref_mac_verify_own (backend : unit) (key msg : bytes) :
  Ref.mac_verify backend key msg (Ref.mac backend key msg) = true.
Proof.
  unfold Ref.mac_verify. generalize (Ref.mac backend key msg).
  induction b as [|x b IH]; [reflexivity|].
  cbn [Ref.bytes_eqb]. rewrite IH, (Byte.byte_dec_lb eq_refl). reflexivity.
Qed.

(** ** Sample runs of the statements above *)

Module SampleRuns.

Import Sample.

#[local] Existing Instance ref_collaborators.

Lemma init_splits_key_witness :
  urlsafe_b64decode key = Some raw_key /\
  List.length raw_key = 32%nat /\
  st_self (constructed now)
    = mkFernet (firstn 16 raw_key) (skipn 16 raw_key) tt /\
  urlsafe_b64decode short_key = Some (firstn 31 raw_key) /\
  __init__ short_key None (blank now) = (Raise ValueError, blank now).
Proof.
  assert (Hk : urlsafe_b64decode key = Some raw_key)
    by (vm_compute; reflexivity).
  assert (Hs : urlsafe_b64decode short_key = Some (firstn 31 raw_key))
    by (vm_compute; reflexivity).
  split; [exact Hk|]. split; [reflexivity|]. split; [|split; [exact Hs|]].
  - destruct (init_splits_key key raw_key None (blank now) Hk) as [Hyes _].
    destruct (Hyes eq_refl) as (_ & Hself & _). exact Hself.
  - destruct (init_splits_key short_key (firstn 31 raw_key) None (blank now) Hs)
      as [_ Hno].
    apply Hno. vm_compute. discriminate.
Defined.

Lemma decrypt_empty_data_witness :
  urlsafe_b64decode [] = Some [] /\
  fst (decrypt (PyBytes []) (Some 60) (constructed now)) = Raise IndexError.
Proof.
  split; [reflexivity|].
  apply decrypt_empty_data_raises_IndexError. reflexivity.
Defined.

Lemma future_skew_check_witness :
  fst (decrypt (PyBytes (token_at (now + 61))) None (constructed now))
    = Raise InvalidToken /\
  fst (decrypt (PyBytes (token_at (now + 59))) None (constructed now))
    = Ok secret.
Proof.
  split.
  - refine (proj1 (proj2 (proj2 (proj2
              (future_skew_check (token_at (now + 61)) (data_at (now + 61))
                 (constructed now) (now + 61) secret _ _)))) _);
      vm_compute; reflexivity.
  - refine (proj2 (proj2 (proj2 (proj2
              (future_skew_check (token_at (now + 59)) (data_at (now + 59))
                 (constructed now) (now + 59) secret _ _)))) _);
      vm_compute; reflexivity.
Defined.

Lemma future_skew_boundary_witness :
  fst (decrypt (PyBytes (token_at (now + 60))) None (constructed now))
    = Ok secret.
Proof.
  apply (future_skew_boundary (token_at (now + 60)) (data_at (now + 60))
           (constructed now) (now + 60) secret);
    vm_compute; reflexivity.
Defined.

Lemma ttl_check_witness :
  fst (decrypt (PyBytes (token_at (now - 100))) (Some 50) (constructed now))
    = Raise InvalidToken /\
  fst (decrypt (PyBytes (token_at (now - 100))) (Some 200) (constructed now))
    = Ok secret /\
  fst (decrypt (PyBytes (token_at 0)) None (constructed now)) = Ok secret.
Proof.
  assert (Hold : forall t, t = now - 100 \/ t = 0 ->
            urlsafe_b64decode (token_at t) = Some (data_at t) /\
            struct_unpack_Q (py_slice (data_at t) (Some 1) (Some 9)) = Some t /\
            untimed_checks (st_self (constructed now)) (data_at t)
              = Some (t, secret)).
  { intros t [-> | ->]; repeat split; vm_compute; reflexivity. }
  destruct (Hold (now - 100) (or_introl eq_refl)) as (Hd & Hts & Hu).
  destruct (Hold 0 (or_intror eq_refl)) as (Hd0 & Hts0 & Hu0).
  destruct (ttl_check (token_at (now - 100)) (data_at (now - 100))
              (constructed now) (now - 100) Hd Hts) as [_ Hvalid].
  destruct (Hvalid secret Hu) as (_ & Hpair & _).
  destruct (ttl_check (token_at 0) (data_at 0) (constructed now) 0 Hd0 Hts0)
    as [_ Hvalid0].
  destruct (Hvalid0 secret Hu0) as (_ & _ & Hnone).
  split; [apply Hpair; reflexivity|].
  split; [apply Hpair; reflexivity|].
  apply Hnone. vm_compute. discriminate.
Defined.

Lemma plaintext_only_after_mac_witness :
  fst (decrypt (PyBytes (token_at now)) None (constructed now)) = Ok secret /\
  mac_guards_decrypt false
    (events_of (decrypt (PyBytes (token_at now)) None) (constructed now))
    = true.
Proof.
  assert (Hok : fst (decrypt (PyBytes (token_at now)) None (constructed now))
                = Ok secret) by (vm_compute; reflexivity).
  split; [exact Hok|].
  destruct (plaintext_only_after_mac (PyBytes (token_at now)) None
              (constructed now) secret Hok)
    as (tok & data & padded & _ & _ & _ & _ & _ & _ & Hguard).
  exact Hguard.
Defined.

Lemma encrypt_from_parts_layout_witness :
  exists ciphertext,
    Ref.cbc_encrypt tt (skipn 16 raw_key) iv (Ref.pkcs7_pad secret)
      = Some ciphertext /\
    fst (_encrypt_from_parts (PyBytes secret) now iv (constructed now))
      = Ok (Ref.b64encode
              (([x80] ++ be_bytes 8 now ++ iv ++ ciphertext) ++
               Ref.mac tt (firstn 16 raw_key)
                 ([x80] ++ be_bytes 8 now ++ iv ++ ciphertext))).
Proof.
  assert (Hnow : 0 <= now < 2 ^ 64) by (unfold now; lia).
  destruct (encrypt_from_parts_layout (C := ref_collaborators)
              ref_pkcs7_pad_blocks ref_cbc_encrypt_blocks ref_mac_length
              secret now iv (constructed now) Hnow eq_refl eq_refl)
    as (ciphertext & Hct & _ & _ & _ & Hrun & _).
  exists ciphertext. split; [exact Hct|exact Hrun].
Defined.

Lemma encrypt_decrypt_roundtrip_witness :
  exists token,
    fst (encrypt (PyBytes secret) (constructed now)) = Ok token /\
    fst (decrypt (PyBytes token) None (constructed (now + 5))) = Ok secret.
Proof.
  assert (Hk : urlsafe_b64decode key = Some raw_key)
    by (vm_compute; reflexivity).
  assert (Hclock : 0 <= st_clock (snd (__init__ key None (blank now))) < 2 ^ 64)
    by (vm_compute; split; [discriminate|reflexivity]).
  destruct (encrypt_decrypt_roundtrip (C := ref_collaborators)
              ref_b64_decode_encode ref_pkcs7_pad_blocks ref_pkcs7_unpad_pad
              ref_cbc_encrypt_blocks ref_cbc_decrypt_encrypt
              ref_mac_length ref_mac_verify_own
              key raw_key None secret (blank now) Hk eq_refl Hclock)
    as (_ & token & Henc & Hdec).
  exists token. split; [exact Henc|].
  apply Hdec; [reflexivity|vm_compute; discriminate].
Defined.

End SampleRuns.

(** ** The reference collaborators meet the further contracts *)

Lemma ref_bytes_eqb_eq (a b : bytes) : Ref.bytes_eqb a b = true -> a = b.
Proof.
  revert b. induction a as [|x a IH]; intros [|y b] H; try discriminate;
    [reflexivity|].
  cbn [Ref.bytes_eqb] in H. apply andb_true_iff in H as [Hx Hr].
  apply Byte.byte_dec_bl in Hx. rewrite Hx, (IH b Hr). reflexivity.
Qed.

Lemma ref_mac_verify_sound (backend : unit) (key msg tag : bytes) :
  Ref.mac_verify backend key msg tag = true -> tag = Ref.mac backend key msg.
Proof. intros H. symmetry. apply ref_bytes_eqb_eq. exact H. Qed.

Lemma ref_cbc_encrypt_length (backend : unit) (key iv d c : bytes) :
  List.length key = 16%nat -> List.length iv = 16%nat ->
  Ref.cbc_encrypt backend key iv d = Some c ->
  List.length c = List.length d.
Proof.
  intros Hk Hiv. unfold Ref.cbc_encrypt.
  destruct (Nat.eqb_spec (List.length d mod 16) 0) as [Hd|]; [|discriminate].
  intros Hc.
  assert (Hc' : c = Ref.cbc_encrypt_blocks (List.length d / 16) key iv d)
    by congruence.
  subst c. pose proof (ref_blocks_length d Hd) as Hlen.
  rewrite (ref_length_cbc_encrypt_blocks _ key iv d Hk Hiv Hlen).
  symmetry. exact Hlen.
Qed.

Lemma ref_length_cbc_decrypt_blocks (n : nat) (key prev d : bytes) :
  List.length key = 16%nat -> List.length prev = 16%nat ->
  List.length d = (16 * n)%nat ->
  List.length (Ref.cbc_decrypt_blocks n key prev d) = (16 * n)%nat.
Proof.
  intros Hk. revert prev d. induction n as [|n IH]; intros prev d Hp Hd;
    [reflexivity|].
  cbn [Ref.cbc_decrypt_blocks].
  assert (Hf : List.length (firstn 16 d) = 16%nat)
    by (rewrite length_firstn; lia).
  assert (Hb : List.length (Ref.block_decrypt key (firstn 16 d)) = 16%nat)
    by (unfold Ref.block_decrypt;
        rewrite length_rev, ref_length_xor_bytes; congruence).
  rewrite length_app, ref_length_xor_bytes by congruence.
  rewrite Hb, IH; [lia|exact Hf|rewrite length_skipn; lia].
Qed.

Lemma ref_cbc_decrypt_length (backend : unit) (key iv c d : bytes) :
  List.length key = 16%nat -> List.length iv = 16%nat ->
  Ref.cbc_decrypt backend key iv c = Some d ->
  List.length d = List.length c.
Proof.
  intros Hk Hiv. unfold Ref.cbc_decrypt.
  destruct (Nat.eqb_spec (List.length c mod 16) 0) as [Hc|]; [|discriminate].
  intros Hd.
  assert (Hd' : d = Ref.cbc_decrypt_blocks (List.length c / 16) key iv c)
    by congruence.
  subst d. pose proof (ref_blocks_length c Hc) as Hlen.
  rewrite (ref_length_cbc_decrypt_blocks _ key iv c Hk Hiv Hlen).
  symmetry. exact Hlen.
Qed.

Lemma ref_pkcs7_pad_length (d : bytes) :
  List.length (Ref.pkcs7_pad d) = (16 * (List.length d / 16 + 1))%nat.
Proof.
  unfold Ref.pkcs7_pad. rewrite length_app, repeat_length.
  pose proof (Nat.mod_upper_bound (List.length d) 16 ltac:(lia)).
  pose proof (Nat.div_mod_eq (List.length d) 16). lia.
Qed.

Lemma ref_pkcs7_unpad_length (d p : bytes) :
  Ref.pkcs7_unpad d = Some p ->
  (0 < List.length d)%nat /\ (List.length d mod 16 = 0)%nat /\
  (List.length p < List.length d)%nat.
Proof.
  unfold Ref.pkcs7_unpad.
  destruct (Nat.eqb_spec (List.length d) 0) as [|Hpos]; [discriminate|].
  destruct (Nat.eqb_spec (List.length d mod 16) 0) as [Hmod|];
    [|discriminate].
  cbn [orb negb].
  destruct (Nat.eqb_spec (Z.to_nat (Z_of_byte (last d x00))) 0) as [|Hn];
    [discriminate|].
  cbn [orb]. destruct (Nat.ltb _ _); [discriminate|].
  destruct (forallb _ _); [|discriminate].
  intros Hp.
  assert (Hp' : p = firstn (List.length d
                            - Z.to_nat (Z_of_byte (last d x00))) d)
    by congruence.
  subst p. rewrite length_firstn. lia.
Qed.

(** ** Sample runs of the further properties *)

Module MoreRuns.

Import Sample MoreSamples.

#[local] Existing Instance ref_collaborators.

Lemma constructed_self (t : Z) :
  st_self (constructed t)
    = mkFernet (firstn 16 raw_key) (skipn 16 raw_key) tt.
Proof.
  assert (Hk : urlsafe_b64decode key = Some raw_key)
    by (vm_compute; reflexivity).
  unfold constructed. rewrite (init_run key raw_key None (blank t) Hk).
  reflexivity.
Qed.

Lemma init_failure_atomic_witness :
  __init__ short_key None (blank now) = (Raise ValueError, blank now) /\
  exists k, urlsafe_b64decode short_key = Some k /\ List.length k <> 32%nat.
Proof.
  assert (Hs : urlsafe_b64decode short_key = Some (firstn 31 raw_key))
    by (vm_compute; reflexivity).
  pose proof (init_run short_key _ None (blank now) Hs) as H.
  change (Nat.eqb (List.length (firstn 31 raw_key)) 32) with false in H.
  cbv iota in H.
  split; [exact H|].
  destruct (init_failure_atomic short_key None (blank now) (blank now)
              ValueError H) as [_ [[_ Hno] | (k & Hk & Hlen & _)]].
  - discriminate Hno.
  - exists k. split; assumption.
Defined.

Lemma early_rejection_witness :
  fst (decrypt (PyBytes bad_version_token) None (constructed now))
    = Raise InvalidToken /\
  events_of (decrypt (PyBytes bad_version_token) None) (constructed now)
    = [EvClock now].
Proof.
  apply (early_rejection_calls_no_primitive bad_version_token bad_version_data
           None (constructed now)).
  - vm_compute. reflexivity.
  - discriminate.
  - left. vm_compute. discriminate.
Defined.

Lemma forged_token_witness :
  fst (decrypt (PyBytes forged_token) (Some 60) (constructed now))
    = Raise InvalidToken.
Proof.
  refine (proj1 (forged_token_never_decrypted forged_token forged_data
                   (Some 60) (constructed now) now _ _ _ _ _ _)).
  - vm_compute. reflexivity.
  - vm_compute. reflexivity.
  - vm_compute. reflexivity.
  - intros t [= <-]. vm_compute. discriminate.
  - vm_compute. discriminate.
  - vm_compute. reflexivity.
Defined.

Lemma unauthentic_token_witness :
  fst (decrypt (PyBytes forged_token) None (constructed now))
    = Raise InvalidToken.
Proof.
  apply (unauthentic_token_rejected (C := ref_collaborators)
           ref_mac_verify_sound forged_token forged_data None
           (constructed now)).
  - vm_compute. reflexivity.
  - vm_compute. discriminate.
  - vm_compute. discriminate.
Defined.

Lemma cross_key_witness :
  exists token,
    fst (_encrypt_from_parts (PyBytes secret) now iv (constructed now))
      = Ok token /\
    fst (decrypt (PyBytes token) None (other_constructed now))
      = Raise InvalidToken.
Proof.
  assert (Hnow : 0 <= now < 2 ^ 64) by (unfold now; lia).
  assert (Hiv : List.length iv = 16%nat) by (vm_compute; reflexivity).
  assert (Hct : aes_cbc_encrypt (_backend (st_self (constructed now)))
                  (_encryption_key (st_self (constructed now))) iv
                  (pkcs7_pad secret) = Some ciphertext)
    by (vm_compute; reflexivity).
  destruct (cross_key_rejected (C := ref_collaborators)
              ref_b64_decode_encode ref_mac_length ref_mac_verify_sound
              secret now iv ciphertext (constructed now) Hnow Hiv Hct)
    as (token & Henc & Hdec).
  exists token. split; [exact Henc|].
  apply Hdec. vm_compute. discriminate.
Defined.

Lemma accepted_token_layout_witness :
  exists data,
    urlsafe_b64decode (token_at now) = Some data /\
    hd_error data = Some x80 /\ (73 <= List.length data)%nat.
Proof.
  assert (Hek : List.length (_encryption_key (st_self (constructed now)))
                = 16%nat) by (vm_compute; reflexivity).
  assert (Hok : fst (decrypt (PyBytes (token_at now)) None (constructed now))
                = Ok secret) by (vm_compute; reflexivity).
  destruct (accepted_token_layout (C := ref_collaborators)
              ref_mac_length ref_mac_verify_sound ref_cbc_decrypt_length
              ref_pkcs7_unpad_length
              (token_at now) None (constructed now) secret Hek Hok)
    as (data & Hd & Hv & Hlen & _).
  exists data. repeat split; assumption.
Defined.

Lemma encrypted_token_size_witness :
  exists raw,
    fst (_encrypt_from_parts (PyBytes secret) now iv (constructed now))
      = Ok (urlsafe_b64encode raw) /\
    List.length raw = 73%nat.
Proof.
  assert (Hnow : 0 <= now < 2 ^ 64) by (unfold now; lia).
  assert (Hiv : List.length iv = 16%nat) by (vm_compute; reflexivity).
  assert (Hek : List.length (_encryption_key (st_self (constructed now)))
                = 16%nat) by (vm_compute; reflexivity).
  destruct (encrypted_token_size (C := ref_collaborators)
              ref_cbc_encrypt_blocks ref_mac_length ref_cbc_encrypt_length
              ref_pkcs7_pad_length
              secret now iv (constructed now) Hnow Hiv Hek)
    as (raw & Hrun & _ & Hlen).
  exists raw. split; [exact Hrun|].
  rewrite Hlen. vm_compute. reflexivity.
Defined.

Lemma roundtrip_with_ttl_witness :
  exists token,
    fst (_encrypt_from_parts (PyBytes secret) now iv (constructed now))
      = Ok token /\
    fst (decrypt (PyBytes token) (Some 30) (constructed (now + 30)))
      = Ok secret /\
    fst (decrypt (PyBytes token) (Some 30) (constructed (now + 31)))
      = Raise InvalidToken.
Proof.
  assert (Hnow : 0 <= now < 2 ^ 64) by (unfold now; lia).
  assert (Hiv : List.length iv = 16%nat) by (vm_compute; reflexivity).
  assert (Hek : List.length (_encryption_key (st_self (constructed now)))
                = 16%nat) by (vm_compute; reflexivity).
  assert (Hself : forall t, st_self (constructed t) = st_self (constructed now))
    by (intros t; rewrite !constructed_self; reflexivity).
  destruct (roundtrip_with_ttl (C := ref_collaborators)
              ref_b64_decode_encode ref_pkcs7_pad_blocks ref_pkcs7_unpad_pad
              ref_cbc_encrypt_blocks ref_cbc_decrypt_encrypt
              ref_mac_length ref_mac_verify_own
              secret now iv (constructed now) Hnow Hiv Hek)
    as (token & Henc & Hdec).
  exists token. split; [exact Henc|].
  split.
  - rewrite (Hdec (Some 30) (constructed (now + 30)) (Hself _)).
    vm_compute. reflexivity.
  - rewrite (Hdec (Some 30) (constructed (now + 31)) (Hself _)).
    vm_compute. reflexivity.
Defined.

Lemma encrypt_stamps_witness :
  exists token data,
    fst (encrypt (PyBytes secret) (constructed now)) = Ok token /\
    urlsafe_b64decode token = Some data /\
    struct_unpack_Q (py_slice data (Some 1) (Some 9)) = Some now /\
    py_slice data (Some 9) (Some 25) = iv.
Proof.
  assert (Hnow : 0 <= st_clock (constructed now) < 2 ^ 64)
    by (vm_compute; split; [discriminate|reflexivity]).
  assert (Hek : List.length (_encryption_key (st_self (constructed now)))
                = 16%nat) by (vm_compute; reflexivity).
  destruct (encrypt_stamps_clock_and_iv (C := ref_collaborators)
              ref_b64_decode_encode ref_pkcs7_pad_blocks
              ref_cbc_encrypt_blocks ref_mac_length
              secret (constructed now) Hnow Hek)
    as (token & data & Henc & _ & Hd & Hts & Hiv).
  exists token, data.
  split; [exact Henc|]. split; [exact Hd|]. split; [exact Hts|exact Hiv].
Defined.

Lemma generate_key_material_witness :
  exists key,
    fst (generate_key (blank now)) = Ok key /\
    fst (__init__ key None (blank now)) = Ok tt.
Proof.
  destruct (generate_key_material (C := ref_collaborators)
              ref_b64_decode_encode None (blank now) (blank now))
    as (key & Hgen & _ & _ & Hinit & _).
  exists key. split; assumption.
Defined.

Lemma timestamp_range_witness :
  fst (_encrypt_from_parts (PyBytes secret) (-1) iv (constructed now))
    = Raise StructError.
Proof.
  refine (proj1 (timestamp_out_of_range_raises secret (-1) iv ciphertext
                   (constructed now) _ _)).
  - lia.
  - vm_compute. reflexivity.
Defined.

Lemma truncated_token_witness :
  fst (decrypt (PyBytes short_token) None (constructed now))
    = Raise InvalidToken.
Proof.
  refine (proj1 (truncated_token_rejected short_token short_data None
                   (constructed now) _ _)).
  - vm_compute. reflexivity.
  - vm_compute. split; apply le_n_S; repeat constructor.
Defined.

Lemma decrypt_accepts_witness :
  exists data timestamp,
    urlsafe_b64decode (token_at now) = Some data /\
    untimed_checks (st_self (constructed now)) data
      = Some (timestamp, secret).
Proof.
  assert (Hok : fst (decrypt (PyBytes (token_at now)) None (constructed now))
                = Ok secret) by (vm_compute; reflexivity).
  destruct (proj1 (decrypt_accepts_iff (token_at now) None (constructed now)
                     secret) Hok)
    as (data & ts & Hd & Hu & _).
  exists data, ts. split; assumption.
Defined.

Lemma ttl_only_restricts_witness :
  fst (decrypt (PyBytes (token_at (now - 100))) (Some 500) (constructed now))
    = Ok secret /\
  fst (decrypt (PyBytes (token_at (now - 100))) None (constructed now))
    = Ok secret.
Proof.
  assert (Hok : fst (decrypt (PyBytes (token_at (now - 100))) (Some 200)
                       (constructed now)) = Ok secret)
    by (vm_compute; reflexivity).
  destruct (ttl_only_restricts (token_at (now - 100)) 200 (constructed now)
              secret Hok) as [Hlarger Hnone].
  split; [apply Hlarger; lia|exact Hnone].
Defined.

Lemma no_ttl_never_expires_witness :
  fst (decrypt (PyBytes (token_at now)) None (constructed (now + 1000000000)))
    = Ok secret.
Proof.
  apply (no_ttl_never_expires (token_at now) (constructed now)).
  - vm_compute. reflexivity.
  - rewrite !constructed_self. reflexivity.
  - vm_compute. discriminate.
Defined.

End MoreRuns.
